(** * Zenno Concierge: the voice negotiation engine and its session store

    A shallow embedding of the server side of the negotiation engine:
    - the in-memory session store ([MemStorage] in storage.ts),
    - the voice-dialog renderer [generateConversationalTwiML] (twilio.ts),
    - the gather handler [POST /api/calls/gather/:sessionId/:callId/:stage],
    - the status webhook [POST /api/calls/webhook/:sessionId/:callId],
    - the payment processing route [POST /api/payments/process].

    Strings are [String.string] (UTF-8 bytes, so the Devanagari keywords of
    the source are byte strings and substring tests on them agree with the
    JavaScript ones).  Numbers are [Z]; the JavaScript [||] default on a
    number treats [0] as absent, as the source does.  Message ids
    ([randomUUID()]) and timestamps ([new Date().toISOString()]) are the
    fields [env_uuid] and [env_now] of an environment passed to each
    handler. *)

From Stdlib Require Import String Ascii ZArith List Bool Lia.
From stdpp Require Import base gmap strings list.

Import ListNotations.
Local Open Scope Z_scope.

(* ------------------------------------------------------------------ *)
(** ** String helpers used by the handlers *)

Module Str.

(** [s.includes(p)] *)
Fixpoint includes (s p : string) : bool :=
  String.prefix p s ||
  match s with
  | EmptyString => false
  | String _ s' => includes s' p
  end.

(** [s.toLowerCase()] on UTF-8 bytes.  Mapped are the code points whose
    lower case contains an ASCII letter: A-Z, U+0130 (capital I with dot,
    to "i" and U+0307) and U+212A (Kelvin sign, to "k").  Every other
    character keeps its bytes: its lower case (if any) contains no ASCII
    letter and no Devanagari character, and the text is only searched for
    ASCII words and Devanagari (caseless) words, which UTF-8 lets match
    only whole characters. *)
Definition lower_char (c : ascii) : ascii :=
  let n := nat_of_ascii c in
  if ((65 <=? n) && (n <=? 90))%nat then ascii_of_nat (n + 32) else c.

Fixpoint toLowerCase (s : string) : string :=
  match s with
  | EmptyString => EmptyString
  | String c s' =>
      match s' with
      | String c2 s2 =>
          if ((nat_of_ascii c =? 196) && (nat_of_ascii c2 =? 176))%nat then
            String "i" (String (ascii_of_nat 204) (String (ascii_of_nat 135)
              (toLowerCase s2)))
          else
            match s2 with
            | String c3 s3 =>
                if ((nat_of_ascii c =? 226) && (nat_of_ascii c2 =? 132)
                    && (nat_of_ascii c3 =? 170))%nat
                then String "k" (toLowerCase s3)
                else String (lower_char c) (toLowerCase s')
            | EmptyString => String (lower_char c) (toLowerCase s')
            end
      | EmptyString => String (lower_char c) EmptyString
      end
  end.

Definition is_digit (c : ascii) : bool :=
  let n := nat_of_ascii c in ((48 <=? n) && (n <=? 57))%nat.

Definition digit_val (c : ascii) : Z := Z.of_nat (nat_of_ascii c) - 48.

(** [s.match(/\d+/g)] followed by [parseInt] on each match: the values of
    the maximal runs of decimal digits, in order.  [cur] is the value of
    the run being read. *)
Fixpoint number_tokens_from (s : string) (cur : option Z) : list Z :=
  match s with
  | EmptyString => match cur with Some n => [n] | None => [] end
  | String c s' =>
      if is_digit c
      then number_tokens_from s' (Some (10 * default 0 cur + digit_val c))
      else match cur with
           | Some n => n :: number_tokens_from s' None
           | None => number_tokens_from s' None
           end
  end.

Definition number_tokens (s : string) : list Z := number_tokens_from s None.

(** [s.match(/\d+/)] followed by [parseInt]: the first run of digits. *)
Definition first_number (s : string) : option Z := head (number_tokens s).

(** [String(n)], [n.toString()] and [`${n}`] for an integer [n] with
    |n| < 10^21: the range in which JavaScript writes an integer as its
    decimal digits, with a leading "-" when negative.  From 10^21 on
    JavaScript switches to exponent notation ("1e+21"), which is not
    modelled; the properties that depend on printed digits assume the
    range. *)
Fixpoint pos_digits (fuel : nat) (n : Z) (acc : string) : string :=
  match fuel with
  | O => acc
  | S fuel' =>
      let d := ascii_of_nat (Z.to_nat (n mod 10) + 48) in
      if n <? 10 then String d acc
      else pos_digits fuel' (n / 10) (String d acc)
  end.

Definition Z_toString (n : Z) : string :=
  if n <? 0 then String "-" (pos_digits (Z.to_nat (- n)) (- n) EmptyString)
  else pos_digits (S (Z.to_nat n)) n EmptyString.

(** [n.toLocaleString()] for an integer in the en-US locale: the digits in
    groups of three separated by commas. *)
Fixpoint group3 (fuel : nat) (n : Z) : string :=
  match fuel with
  | O => EmptyString
  | S fuel' =>
      if n <? 1000 then Z_toString n
      else
        let r := n mod 1000 in
        let pad := if r <? 10 then "00" else if r <? 100 then "0" else "" in
        (group3 fuel' (n / 1000) ++ "," ++ pad ++ Z_toString r)%string
  end.

Definition toLocaleString (n : Z) : string :=
  if n <? 0 then String "-" (group3 (Z.to_nat (- n)) (- n))
  else group3 (S (Z.to_nat n)) n.

(** [s.replace(p, r)] with a string pattern: the first occurrence only. *)
Fixpoint replace_first (s p r : string) : string :=
  if String.prefix p s
  then (r ++ substring (String.length p) (String.length s) s)%string
  else match s with
       | EmptyString => EmptyString
       | String c s' => String c (replace_first s' p r)
       end.

(** The double quote character.  Template literals of the source are
    written below with [^] in place of each double quote; [lit] puts the
    quotes back. *)
Definition dq : ascii := ascii_of_nat 34.

Fixpoint lit (s : string) : string :=
  match s with
  | EmptyString => EmptyString
  | String c s' => String (if Ascii.eqb c "^"%char then dq else c) (lit s')
  end.

End Str.

Example number_tokens_ex : Str.number_tokens "3 saaree 9000" = [3; 9000].
Proof. reflexivity. Qed.

Example toLocaleString_ex : Str.toLocaleString 1234567 = "1,234,567"%string.
Proof. reflexivity. Qed.

(** The JavaScript default [x || d] on an optional number: [undefined] and
    [0] are falsy. *)
Definition or_num (o : option Z) (d : Z) : Z :=
  match o with
  | Some z => if Z.eqb z 0 then d else z
  | None => d
  end.

(** Truthiness of an optional number ([!x] is its negation). *)
Definition truthy_num (o : option Z) : bool :=
  match o with Some z => negb (Z.eqb z 0) | None => false end.

(** [Math.round(n / 2)] for an integer [n]: [Math.round x] is
    [floor (x + 1/2)], hence [floor ((n + 1) / 2)]. *)
Definition math_round_half (n : Z) : Z := (n + 1) / 2.

(* ------------------------------------------------------------------ *)
(** ** Data model (shared/schema.ts) *)

(** [conversationStageSchema], together with the extra ["timeout"] stage
    that the gather handler accepts in its URL. *)
Inductive Stage :=
  | SGreeting | SAskRequirements | SNegotiatePrice | SCounterOffer
  | SFinalAgreement | SNoSaree | SEnded | STimeout.

Definition stage_eqb (a b : Stage) : bool :=
  match a, b with
  | SGreeting, SGreeting | SAskRequirements, SAskRequirements
  | SNegotiatePrice, SNegotiatePrice | SCounterOffer, SCounterOffer
  | SFinalAgreement, SFinalAgreement | SNoSaree, SNoSaree
  | SEnded, SEnded | STimeout, STimeout => true
  | _, _ => false
  end.

Definition stage_to_string (s : Stage) : string :=
  match s with
  | SGreeting => "greeting" | SAskRequirements => "askRequirements"
  | SNegotiatePrice => "negotiatePrice" | SCounterOffer => "counterOffer"
  | SFinalAgreement => "finalAgreement" | SNoSaree => "noSaree"
  | SEnded => "ended" | STimeout => "timeout"
  end.

(** [validStages.includes(stage)] of the gather handler, as a parser. *)
Definition stage_of_string (s : string) : option Stage :=
  if String.eqb s "greeting" then Some SGreeting
  else if String.eqb s "askRequirements" then Some SAskRequirements
  else if String.eqb s "negotiatePrice" then Some SNegotiatePrice
  else if String.eqb s "counterOffer" then Some SCounterOffer
  else if String.eqb s "finalAgreement" then Some SFinalAgreement
  else if String.eqb s "noSaree" then Some SNoSaree
  else if String.eqb s "ended" then Some SEnded
  else if String.eqb s "timeout" then Some STimeout
  else None.

Inductive CallStatus :=
  | Initiating | Ringing | InProgress | Negotiating | CallCompleted
  | NoAnswer | HungUp | CallTimeout | CallFailed.

Inductive JourneyStatus :=
  | Chatting | SearchingVendors | SelectingVendor | CallingVendor
  | ProcessingPayment | JourneyCompleted.

Inductive TransactionStatus :=
  | TxPending | TxAwaitingApproval | TxApproved | TxRejected
  | TxProcessing | TxCompleted | TxFailed.

Inductive Role := RUser | RAssistant.

Record ConversationState := {
  cs_stage : Stage;
  cs_quantity : option Z;
  cs_initialPrice : option Z;
  cs_vendorPrice : option Z;
  cs_finalPrice : option Z;
  cs_attempts : Z;
}.

Record Message := {
  msg_id : string;
  msg_role : Role;
  msg_content : string;
  msg_timestamp : string;
}.

Record Vendor := {
  v_id : string;
  v_name : string;
  v_phone : string;
}.

Record Call := {
  call_id : string;
  call_vendorId : string;
  call_status : CallStatus;
  call_duration : option Z;
  call_negotiatedPrice : option Z;
  call_conversationState : option ConversationState;
  call_startedAt : option string;
  call_completedAt : option string;
}.

(** The fields of a Transaction the processing route reads or writes; the
    floating-point fields (exchange rate, fee, USDC total) are left out. *)
Record Transaction := {
  tx_id : string;
  tx_vendorId : string;
  tx_amount : Z;
  tx_currency : string;
  tx_status : TransactionStatus;
  tx_coinbaseConversionId : option string;
  tx_locusTransactionHash : option string;
  tx_stripePayoutId : option string;
  tx_createdAt : string;
  tx_completedAt : option string;
}.

Record Session := {
  s_id : string;
  s_messages : list Message;
  s_vendors : list Vendor;
  s_selectedVendor : option Vendor;
  s_currentCall : option Call;
  s_transaction : option Transaction;
  s_journeyStatus : JourneyStatus;
  s_createdAt : string;
}.

(** The external settlement calls made by the payment route, in order. *)
Inductive Settlement :=
  | OffRampUSDC (sessionId : string)
  | SendUSDC (sessionId : string)
  | CreatePayout (sessionId : string).

(** The server's state: the session map of [MemStorage] and the log of
    settlement calls made to the external providers. *)
Record World := {
  w_sessions : gmap string Session;
  w_log : list Settlement;
}.

(** Sources of fresh values: [randomUUID()] and [new Date().toISOString()]. *)
Record Env := {
  env_uuid : string;
  env_now : string;
}.

(** Object spreads [{ ...x, field: v }] used by the handlers. *)
Definition set_journeyStatus (j : JourneyStatus) (s : Session) : Session :=
  {| s_id := s_id s; s_messages := s_messages s; s_vendors := s_vendors s;
     s_selectedVendor := s_selectedVendor s; s_currentCall := s_currentCall s;
     s_transaction := s_transaction s; s_journeyStatus := j;
     s_createdAt := s_createdAt s |}.

Definition set_messages (ms : list Message) (s : Session) : Session :=
  {| s_id := s_id s; s_messages := ms; s_vendors := s_vendors s;
     s_selectedVendor := s_selectedVendor s; s_currentCall := s_currentCall s;
     s_transaction := s_transaction s; s_journeyStatus := s_journeyStatus s;
     s_createdAt := s_createdAt s |}.

Definition set_currentCall (c : option Call) (s : Session) : Session :=
  {| s_id := s_id s; s_messages := s_messages s; s_vendors := s_vendors s;
     s_selectedVendor := s_selectedVendor s; s_currentCall := c;
     s_transaction := s_transaction s; s_journeyStatus := s_journeyStatus s;
     s_createdAt := s_createdAt s |}.

Definition set_transaction (t : option Transaction) (s : Session) : Session :=
  {| s_id := s_id s; s_messages := s_messages s; s_vendors := s_vendors s;
     s_selectedVendor := s_selectedVendor s; s_currentCall := s_currentCall s;
     s_transaction := t; s_journeyStatus := s_journeyStatus s;
     s_createdAt := s_createdAt s |}.

(** [{ ...call, status, duration, completedAt }] *)
Definition call_set_status (st : CallStatus) (dur : option Z)
    (completed : option string) (c : Call) : Call :=
  {| call_id := call_id c; call_vendorId := call_vendorId c;
     call_status := st; call_duration := dur;
     call_negotiatedPrice := call_negotiatedPrice c;
     call_conversationState := call_conversationState c;
     call_startedAt := call_startedAt c; call_completedAt := completed |}.

(** [{ ...call, status: "timeout", completedAt }] (no [duration] key). *)
Definition call_set_timeout (now : string) (c : Call) : Call :=
  {| call_id := call_id c; call_vendorId := call_vendorId c;
     call_status := CallTimeout; call_duration := call_duration c;
     call_negotiatedPrice := call_negotiatedPrice c;
     call_conversationState := call_conversationState c;
     call_startedAt := call_startedAt c; call_completedAt := Some now |}.

(** [{ ...call, conversationState, negotiatedPrice }] *)
Definition call_set_conversation (cs : ConversationState) (np : option Z)
    (c : Call) : Call :=
  {| call_id := call_id c; call_vendorId := call_vendorId c;
     call_status := call_status c; call_duration := call_duration c;
     call_negotiatedPrice := np; call_conversationState := Some cs;
     call_startedAt := call_startedAt c;
     call_completedAt := call_completedAt c |}.

Definition tx_set_status (st : TransactionStatus) (t : Transaction) : Transaction :=
  {| tx_id := tx_id t; tx_vendorId := tx_vendorId t; tx_amount := tx_amount t;
     tx_currency := tx_currency t; tx_status := st;
     tx_coinbaseConversionId := tx_coinbaseConversionId t;
     tx_locusTransactionHash := tx_locusTransactionHash t;
     tx_stripePayoutId := tx_stripePayoutId t; tx_createdAt := tx_createdAt t;
     tx_completedAt := tx_completedAt t |}.

Definition tx_set_conversionId (i : string) (t : Transaction) : Transaction :=
  {| tx_id := tx_id t; tx_vendorId := tx_vendorId t; tx_amount := tx_amount t;
     tx_currency := tx_currency t; tx_status := tx_status t;
     tx_coinbaseConversionId := Some i;
     tx_locusTransactionHash := tx_locusTransactionHash t;
     tx_stripePayoutId := tx_stripePayoutId t; tx_createdAt := tx_createdAt t;
     tx_completedAt := tx_completedAt t |}.

Definition tx_set_hash (h : string) (t : Transaction) : Transaction :=
  {| tx_id := tx_id t; tx_vendorId := tx_vendorId t; tx_amount := tx_amount t;
     tx_currency := tx_currency t; tx_status := tx_status t;
     tx_coinbaseConversionId := tx_coinbaseConversionId t;
     tx_locusTransactionHash := Some h;
     tx_stripePayoutId := tx_stripePayoutId t; tx_createdAt := tx_createdAt t;
     tx_completedAt := tx_completedAt t |}.

Definition tx_set_payout (p now : string) (t : Transaction) : Transaction :=
  {| tx_id := tx_id t; tx_vendorId := tx_vendorId t; tx_amount := tx_amount t;
     tx_currency := tx_currency t; tx_status := TxCompleted;
     tx_coinbaseConversionId := tx_coinbaseConversionId t;
     tx_locusTransactionHash := tx_locusTransactionHash t;
     tx_stripePayoutId := Some p; tx_createdAt := tx_createdAt t;
     tx_completedAt := Some now |}.

(* ------------------------------------------------------------------ *)
(** ** The store: an async state monad with exceptions (storage.ts)

    A handler step runs on the [World] and either returns a value or throws
    an [Error] message.  Mutations made before a throw stay in place, as
    they do on the shared JavaScript map. *)

Inductive Result (A : Type) := Ok (a : A) | Throw (e : string).
Arguments Ok {A} a.
Arguments Throw {A} e.

Definition M (A : Type) : Type := World -> Result A * World.

Definition ret {A} (a : A) : M A := fun w => (Ok a, w).

Definition bind {A B} (m : M A) (k : A -> M B) : M B :=
  fun w => match m w with
           | (Ok a, w') => k a w'
           | (Throw e, w') => (Throw e, w')
           end.

Definition throw {A} (e : string) : M A := fun w => (Throw e, w).

(** [try { m } catch (error) { h(error.message) }] *)
Definition try_catch {A} (m : M A) (h : string -> M A) : M A :=
  fun w => match m w with
           | (Ok a, w') => (Ok a, w')
           | (Throw e, w') => h e w'
           end.

Notation "x <-- m ;; k" := (bind m (fun x => k))
  (at level 100, m at next level, right associativity).
Notation "m ;;; k" := (bind m (fun _ => k))
  (at level 100, right associativity).

Definition put_session (id : string) (s : Session) : M unit :=
  fun w => (Ok tt, {| w_sessions := <[id := s]> (w_sessions w);
                      w_log := w_log w |}).

Definition log_settlement (e : Settlement) : M unit :=
  fun w => (Ok tt, {| w_sessions := w_sessions w; w_log := w_log w ++ [e] |}).

Module Storage.

Definition getSession (id : string) : M (option Session) :=
  fun w => (Ok (w_sessions w !! id), w).

Definition updateSession (id : string) (upd : Session -> Session) : M Session :=
  s <-- getSession id;;
  match s with
  | None => throw "Session not found"
  | Some s => put_session id (upd s);;; ret (upd s)
  end.

Definition addMessage (id : string) (m : Message) : M unit :=
  s <-- getSession id;;
  match s with
  | None => throw "Session not found"
  | Some s => put_session id (set_messages (s_messages s ++ [m]) s)
  end.

Definition updateCall (id : string) (upd : Call -> Call) : M unit :=
  s <-- getSession id;;
  match s with
  | Some s =>
      match s_currentCall s with
      | Some c => put_session id (set_currentCall (Some (upd c)) s)
      | None => throw "Call not found"
      end
  | None => throw "Call not found"
  end.

Definition setTransaction (id : string) (t : Transaction) : M unit :=
  s <-- getSession id;;
  match s with
  | None => throw "Session not found"
  | Some s => put_session id (set_transaction (Some t) s)
  end.

Definition updateTransaction (id : string) (upd : Transaction -> Transaction)
    : M unit :=
  s <-- getSession id;;
  match s with
  | Some s =>
      match s_transaction s with
      | Some t => put_session id (set_transaction (Some (upd t)) s)
      | None => throw "Transaction not found"
      end
  | None => throw "Transaction not found"
  end.

End Storage.

Definition assistant_msg (env : Env) (content : string) : Message :=
  {| msg_id := env_uuid env; msg_role := RAssistant; msg_content := content;
     msg_timestamp := env_now env |}.

(* ------------------------------------------------------------------ *)
(** ** Voice Response Renderer (twilio.ts) *)

Module Twilio.

Record Script := { message : string; fallback : string }.

(** [NEGOTIATION_SCRIPTS] *)
Definition script_greeting : Script :=
  {| message := "नमस्ते, मैं ज़ेन्नो कॉन्सीयज से बात कर रहा हूं। क्या आपके पास बनारसी साड़ी उपलब्ध है? हाँ के लिए एक दबाएं या हाँ बोलें।";
     fallback := "क्षमा करें, मैं आपकी बात सुन नहीं पाया। कृपया फिर से बोलें।" |}.

Definition script_askRequirements : Script :=
  {| message := "बहुत अच्छा! कृपया बताएं, आपको कितनी साड़ियों की आवश्यकता है और किस रेंज में चाहिए?";
     fallback := "कृपया फिर से बताएं कि आपको कितनी साड़ियों की आवश्यकता है।" |}.

Definition script_negotiatePrice : Script :=
  {| message := "हमें $$QUANTITY$$ साड़ियों की आवश्यकता है। क्या आप $$PRICE$$ रुपये प्रति साड़ी में दे सकते हैं?";
     fallback := "कृपया अपनी कीमत फिर से बताएं।" |}.

Definition script_counterOffer : Script :=
  {| message := "आपकी कीमत $$VENDOR_PRICE$$ रुपये है। क्या आप $$COUNTER_PRICE$$ रुपये में फाइनल कर सकते हैं?";
     fallback := "कृपया हाँ या ना बताएं।" |}.

Definition script_finalAgreement : Script :=
  {| message := "बहुत अच्छा! तो फाइनल डील $$FINAL_PRICE$$ रुपये प्रति साड़ी पर हुई। हमारा प्रतिनिधि जल्द ही आपसे संपर्क करेगा। धन्यवाद!";
     fallback := "" |}.

Definition script_noSaree : Script :=
  {| message := "कोई बात नहीं। धन्यवाद! आपका दिन शुभ हो।";
     fallback := "" |}.

(** The apology spoken before hanging up. *)
Definition apology : string :=
  "क्षमा करें, मैं आपकी बात सुन नहीं पा रहा हूं। कृपया बाद में कॉल करें। धन्यवाद।".

(** Lines of a template literal joined by newlines. *)
Fixpoint lines (ls : list string) : string :=
  match ls with
  | [] => EmptyString
  | [l] => l
  | l :: ls' => (l ++ String (ascii_of_nat 10) EmptyString ++ lines ls')%string
  end.

Definition xml_header : string := Str.lit "<?xml version=^1.0^ encoding=^UTF-8^?>".

Definition say_open : string :=
  Str.lit "<Say voice=^Google.hi-IN-Standard-A^ language=^hi-IN^>".

(** [conversationData?.f?.toString() || d] *)
Definition field_or (f : option Z) (d : string) : string :=
  match f with Some n => Str.Z_toString n | None => d end.

Definition opt_field (cd : option ConversationState)
    (f : ConversationState -> option Z) : option Z :=
  match cd with Some c => f c | None => None end.

(** The [switch(stage)] of [generateConversationalTwiML]: the script in use
    and the prompt with its placeholders substituted. *)
Definition script_and_message (stage : string) (cd : option ConversationState)
    : Script * string :=
  if String.eqb stage "greeting" then (script_greeting, message script_greeting)
  else if String.eqb stage "askRequirements" then
    (script_askRequirements, message script_askRequirements)
  else if String.eqb stage "negotiatePrice" then
    (script_negotiatePrice,
     Str.replace_first
       (Str.replace_first (message script_negotiatePrice) "$$QUANTITY$$"
          (field_or (opt_field cd cs_quantity) "5"))
       "$$PRICE$$" (field_or (opt_field cd cs_initialPrice) "8000"))
  else if String.eqb stage "counterOffer" then
    (script_counterOffer,
     Str.replace_first
       (Str.replace_first (message script_counterOffer) "$$VENDOR_PRICE$$"
          (field_or (opt_field cd cs_vendorPrice) "10000"))
       "$$COUNTER_PRICE$$" (field_or (opt_field cd cs_finalPrice) "9000"))
  else if String.eqb stage "finalAgreement" then
    (script_finalAgreement,
     Str.replace_first (message script_finalAgreement) "$$FINAL_PRICE$$"
       (field_or (opt_field cd cs_finalPrice) "9000"))
  else if String.eqb stage "noSaree" then (script_noSaree, message script_noSaree)
  else (script_greeting, message script_greeting).

Definition maxAttempts : Z := 3.

(** [generateConversationalTwiML(callId, sessionId, stage, baseUrl,
    conversationData, attempt)] *)
Definition generateConversationalTwiML (callId sessionId stage baseUrl : string)
    (cd : option ConversationState) (attempt : Z) : string :=
  let '(currentScript, processedMessage) := script_and_message stage cd in
  if String.eqb stage "finalAgreement" || String.eqb stage "noSaree"
     || String.eqb stage "ended"
  then
    lines [ xml_header;
            "<Response>";
            ("  " ++ say_open ++ processedMessage ++ "</Say>")%string;
            "  <Hangup/>";
            "</Response>" ]
  else
    let actionUrl := (baseUrl ++ "/api/calls/gather/" ++ sessionId ++ "/"
                      ++ callId ++ "/" ++ stage ++ "?attempt="
                      ++ Str.Z_toString attempt)%string in
    let nextAttempt := attempt + 1 in
    let gather :=
      [ Str.lit "  <Gather input=^speech dtmf^ timeout=^5^ speechTimeout=^3^ language=^hi-IN^ ";
        (Str.lit "          action=^" ++ actionUrl
         ++ Str.lit "^ method=^POST^ numDigits=^10^>")%string;
        ("    " ++ say_open ++ processedMessage ++ "</Say>")%string;
        "  </Gather>" ] in
    if attempt >=? maxAttempts then
      lines ([ xml_header; "<Response>" ] ++ gather ++
             [ ("  " ++ say_open)%string;
               ("    " ++ apology)%string;
               "  </Say>";
               "  <Hangup/>";
               "</Response>" ])
    else
      let redirectUrl := (baseUrl ++ "/api/calls/twiml/" ++ sessionId ++ "/"
                          ++ callId ++ "/" ++ stage ++ "?attempt="
                          ++ Str.Z_toString nextAttempt)%string in
      lines ([ xml_header; "<Response>" ] ++ gather ++
             [ ("  " ++ say_open ++ fallback currentScript ++ "</Say>")%string;
               (Str.lit "  <Redirect method=^GET^>" ++ redirectUrl
                ++ "</Redirect>")%string;
               "</Response>" ]).

(** Whether a document contains an input-gather directive. *)
Definition has_gather (twiml : string) : bool := Str.includes twiml "<Gather".

(** Whether a document contains a terminate-call directive. *)
Definition has_hangup (twiml : string) : bool := Str.includes twiml "<Hangup/>".

End Twilio.

(* ------------------------------------------------------------------ *)
(** ** Negotiation State Machine: the gather handler (routes.ts)

    [POST /api/calls/gather/:sessionId/:callId/:stage].  The URL stage is
    the stage being processed; the stored [conversationState] of the
    session's current call supplies the counters and prices. *)

Module Gather.

Record GatherReq := {
  gr_baseUrl : string;
  gr_sessionId : string;
  gr_callId : string;
  gr_stage : string;
  gr_SpeechResult : option string;
  gr_Digits : option string;
}.

(** [req.body.SpeechResult?.toLowerCase() || ""] *)
Definition speechResult (r : GatherReq) : string :=
  match gr_SpeechResult r with Some s => Str.toLowerCase s | None => "" end.

(** [req.body.Digits || ""] *)
Definition digits (r : GatherReq) : string :=
  match gr_Digits r with Some d => d | None => "" end.

(** [returnErrorTwiML] and the final fallback document. *)
Definition errorTwiML (r : GatherReq) : string :=
  Twilio.lines
    [ Twilio.xml_header; "<Response>";
      ("  " ++ Twilio.say_open)%string;
      "    क्षमा करें, कुछ तकनीकी समस्या हुई है। फिर से कोशिश कर रहे हैं।";
      "  </Say>";
      (Str.lit "  <Redirect method=^GET^>" ++ gr_baseUrl r ++ "/api/calls/twiml/"
       ++ gr_sessionId r ++ "/" ++ gr_callId r ++ "/greeting</Redirect>")%string;
      "</Response>" ].

(** The document returned on a timeout. *)
Definition timeoutTwiML : string :=
  Twilio.lines
    [ Twilio.xml_header; "<Response>";
      ("  " ++ Twilio.say_open)%string;
      ("    " ++ Twilio.apology)%string;
      "  </Say>";
      "  <Hangup/>";
      "</Response>" ].

(** The fully initialised [conversationState] built from the stored one. *)
Definition normalize (c : option ConversationState) : ConversationState :=
  match c with
  | Some c =>
      {| cs_stage := cs_stage c; cs_attempts := cs_attempts c;
         cs_quantity := Some (or_num (cs_quantity c) 5);
         cs_initialPrice := Some (or_num (cs_initialPrice c) 8000);
         cs_vendorPrice := cs_vendorPrice c; cs_finalPrice := cs_finalPrice c |}
  | None =>
      {| cs_stage := SGreeting; cs_attempts := 0; cs_quantity := Some 5;
         cs_initialPrice := Some 8000; cs_vendorPrice := None;
         cs_finalPrice := None |}
  end.

(** Assignments to the local [conversationState] object. *)
Definition with_attempts (a : Z) (c : ConversationState) : ConversationState :=
  {| cs_stage := cs_stage c; cs_quantity := cs_quantity c;
     cs_initialPrice := cs_initialPrice c; cs_vendorPrice := cs_vendorPrice c;
     cs_finalPrice := cs_finalPrice c; cs_attempts := a |}.

Definition with_stage (s : Stage) (c : ConversationState) : ConversationState :=
  {| cs_stage := s; cs_quantity := cs_quantity c;
     cs_initialPrice := cs_initialPrice c; cs_vendorPrice := cs_vendorPrice c;
     cs_finalPrice := cs_finalPrice c; cs_attempts := cs_attempts c |}.

Definition with_quantity (q : Z) (c : ConversationState) : ConversationState :=
  {| cs_stage := cs_stage c; cs_quantity := Some q;
     cs_initialPrice := cs_initialPrice c; cs_vendorPrice := cs_vendorPrice c;
     cs_finalPrice := cs_finalPrice c; cs_attempts := cs_attempts c |}.

Definition with_vendorPrice (v : Z) (c : ConversationState) : ConversationState :=
  {| cs_stage := cs_stage c; cs_quantity := cs_quantity c;
     cs_initialPrice := cs_initialPrice c; cs_vendorPrice := Some v;
     cs_finalPrice := cs_finalPrice c; cs_attempts := cs_attempts c |}.

Definition with_finalPrice (f : option Z) (c : ConversationState)
    : ConversationState :=
  {| cs_stage := cs_stage c; cs_quantity := cs_quantity c;
     cs_initialPrice := cs_initialPrice c; cs_vendorPrice := cs_vendorPrice c;
     cs_finalPrice := f; cs_attempts := cs_attempts c |}.

(** [conversationState.initialPrice || 8000] *)
Definition initialPrice_or (c : ConversationState) : Z :=
  or_num (cs_initialPrice c) 8000.

Definition has_input (speech digits : string) : bool :=
  negb (String.eqb speech "") || negb (String.eqb digits "").

Definition greeting_yes (speech digits : string) : bool :=
  String.eqb digits "1" || Str.includes speech "हाँ"
  || Str.includes speech "yes" || Str.includes speech "haan".

Definition greeting_no (speech digits : string) : bool :=
  String.eqb digits "2" || Str.includes speech "नहीं"
  || Str.includes speech "no" || Str.includes speech "nahi".

Definition negotiate_yes (speech digits : string) : bool :=
  Str.includes speech "हाँ" || Str.includes speech "yes" || String.eqb digits "1".

Definition counter_yes (speech digits : string) : bool :=
  Str.includes speech "हाँ" || Str.includes speech "yes"
  || Str.includes speech "ठीक" || Str.includes speech "चलेगा"
  || String.eqb digits "1".

(** [attempts + 1], moving to [onMax] once it reaches [maxAttempts]. *)
Definition retry (stage onMax : Stage) (c : ConversationState)
    : Stage * ConversationState :=
  let a := cs_attempts c + 1 in
  (if a >=? Twilio.maxAttempts then onMax else stage, with_attempts a c).

(** The [switch(stage)]: the next stage and the updated local state. *)
Definition transition (stage : Stage) (speech digits : string)
    (c : ConversationState) : Stage * ConversationState :=
  let hasInput := has_input speech digits in
  match stage with
  | SGreeting =>
      if greeting_yes speech digits then (SAskRequirements, with_attempts 0 c)
      else if greeting_no speech digits then (SNoSaree, with_attempts 0 c)
      else retry SGreeting SNoSaree c
  | SAskRequirements =>
      match Str.number_tokens speech with
      | n0 :: rest =>
          let c1 := with_quantity (or_num (Some n0) 5) c in
          let c2 := match rest with
                    | n1 :: _ => with_vendorPrice n1 c1
                    | [] => c1
                    end in
          (SNegotiatePrice, with_attempts 0 c2)
      | [] =>
          if negb hasInput then retry SAskRequirements STimeout c
          else (SNegotiatePrice, with_attempts 0 c)
      end
  | SNegotiatePrice =>
      if negotiate_yes speech digits then
        (SFinalAgreement,
         with_attempts 0 (with_finalPrice (cs_initialPrice c) c))
      else if negb hasInput then retry SNegotiatePrice STimeout c
      else
        let vp := match Str.first_number speech with
                  | Some n => n
                  | None => initialPrice_or c + 2000
                  end in
        let c1 := with_vendorPrice vp c in
        let c2 := with_finalPrice (Some (math_round_half (initialPrice_or c1 + vp))) c1 in
        (SCounterOffer, with_attempts 0 c2)
  | SCounterOffer =>
      if counter_yes speech digits then (SFinalAgreement, with_attempts 0 c)
      else if negb hasInput then retry SCounterOffer STimeout c
      else
        (SFinalAgreement,
         with_attempts 0 (with_finalPrice (Some (or_num (cs_finalPrice c) 9000 + 500)) c))
  | _ => (SEnded, c)
  end.

(** How a gather turn ends: the early no-input timeout check, the timeout
    reached in the [switch], or a persisted move to [next] with the state
    [cs] saved on the call. *)
Inductive Outcome :=
  | NoInputTimeout
  | StageTimeout
  | Advance (next : Stage) (cs : ConversationState).

Definition decide (stage : Stage) (speech digits : string)
    (c : ConversationState) : Outcome :=
  if negb (has_input speech digits) && (cs_attempts c >=? Twilio.maxAttempts)
  then NoInputTimeout
  else
    match transition stage speech digits c with
    | (STimeout, _) => StageTimeout
    | (next, c') => Advance next (with_stage next c')
    end.

(** The timeout branch: call status, journey reset, notification. *)
Definition on_timeout (env : Env) (sid content : string) : M string :=
  Storage.updateCall sid (call_set_timeout (env_now env));;;
  Storage.updateSession sid (set_journeyStatus SelectingVendor);;;
  Storage.addMessage sid (assistant_msg env content);;;
  ret timeoutTwiML.

Definition handle_gather (env : Env) (req : GatherReq) : M string :=
  let sid := gr_sessionId req in
  try_catch
    (match stage_of_string (gr_stage req) with
     | None => ret (errorTwiML req)
     | Some stage =>
         s <-- try_catch (Storage.getSession sid) (fun _ => ret None);;
         match s with
         | None => ret (errorTwiML req)
         | Some s =>
             match s_currentCall s with
             | None => ret (errorTwiML req)
             | Some call =>
                 let c := normalize (call_conversationState call) in
                 match decide stage (speechResult req) (digits req) c with
                 | NoInputTimeout =>
                     on_timeout env sid
                       "The vendor was not responsive during the call. Would you like to try another vendor?"
                 | StageTimeout =>
                     on_timeout env sid
                       "The vendor was not responsive. Would you like to try another vendor?"
                 | Advance next c' =>
                     ok <-- try_catch
                              (Storage.updateCall sid
                                 (call_set_conversation c' (cs_finalPrice c'));;;
                               ret true)
                              (fun _ => ret false);;
                     if ok then
                       ret (Twilio.generateConversationalTwiML (gr_callId req) sid
                              (stage_to_string next) (gr_baseUrl req) (Some c') 1)
                     else ret (errorTwiML req)
                 end
             end
         end
     end)
    (fun _ => ret (errorTwiML req)).

End Gather.

(* ------------------------------------------------------------------ *)
(** ** Call Status Reconciler: the status webhook (routes.ts)

    [POST /api/calls/webhook/:sessionId/:callId].  [wr_CallDuration] is
    [req.body.CallDuration ? parseInt(req.body.CallDuration) : 0] with a
    numeric duration ([None] when the field is absent or empty). *)

Module Webhook.

Record WebhookReq := {
  wr_sessionId : string;
  wr_callId : string;
  wr_CallStatus : string;
  wr_CallDuration : option Z;
}.

Definition duration (r : WebhookReq) : Z := default 0 (wr_CallDuration r).

(** The result of the status mapping: [mappedStatus], [userMessage],
    [shouldResetJourney], and whether the session journey was moved to
    [processing-payment]. *)
Record Mapping := {
  mappedStatus : CallStatus;
  userMessage : option string;
  shouldResetJourney : bool;
  toPayment : bool;
}.

Definition mk (st : CallStatus) (m : option string) (reset pay : bool) : Mapping :=
  {| mappedStatus := st; userMessage := m; shouldResetJourney := reset;
     toPayment := pay |}.

Definition map_status (callStatus : string) (duration : Z)
    (negotiatedPrice : option Z) : Mapping :=
  if String.eqb callStatus "no-answer" || String.eqb callStatus "busy" then
    mk NoAnswer (Some "The vendor didn't answer the call. Would you like to try another vendor?") true false
  else if String.eqb callStatus "failed" then
    mk CallFailed (Some "The call could not be connected. Would you like to try another vendor?") true false
  else if String.eqb callStatus "canceled" then
    mk HungUp (Some "The call was canceled. Would you like to try another vendor?") true false
  else if String.eqb callStatus "completed" then
    if duration <? 10 then
      mk HungUp (Some "The vendor hung up the call. Would you like to try another vendor?") true false
    else if negb (truthy_num negotiatedPrice) && (duration <? 60) then
      mk HungUp (Some "The call ended before negotiation could complete. Would you like to try another vendor?") true false
    else if truthy_num negotiatedPrice then
      mk CallCompleted
        (Some ("Great news! I've negotiated a price of ₹"
               ++ Str.toLocaleString (default 0 negotiatedPrice)
               ++ " for your Banarasi saree. Ready to proceed with payment?")%string)
        false true
    else
      mk CallCompleted (Some "The call has ended. Would you like to try another vendor or proceed differently?") true false
  else if String.eqb callStatus "ringing" then mk Ringing None false false
  else if String.eqb callStatus "in-progress" || String.eqb callStatus "answered" then
    mk InProgress None false false
  else if String.eqb callStatus "initiated" || String.eqb callStatus "queued" then
    mk Initiating None false false
  else mk CallFailed None false false.

Definition is_final_status (st : CallStatus) : bool :=
  match st with
  | CallCompleted | HungUp | NoAnswer | CallFailed | CallTimeout => true
  | _ => false
  end.

(** The handler; the number returned is the HTTP status sent. *)
Definition handle_webhook (env : Env) (req : WebhookReq) : M Z :=
  let sid := wr_sessionId req in
  try_catch
    (s <-- Storage.getSession sid;;
     match s with
     | None => ret 200
     | Some s =>
         match s_currentCall s with
         | None => ret 200
         | Some call =>
             let m := map_status (wr_CallStatus req) (duration req)
                        (call_negotiatedPrice call) in
             (if toPayment m
              then Storage.updateSession sid (set_journeyStatus ProcessingPayment);;;
                   ret tt
              else ret tt);;;
             Storage.updateCall sid
               (call_set_status (mappedStatus m) (Some (duration req))
                  (if is_final_status (mappedStatus m)
                   then Some (env_now env) else None));;;
             (if shouldResetJourney m
              then Storage.updateSession sid (set_journeyStatus SelectingVendor);;;
                   ret tt
              else ret tt);;;
             match userMessage m with
             | Some content => Storage.addMessage sid (assistant_msg env content)
             | None => ret tt
             end;;;
             ret 200
         end
     end)
    (fun _ => ret 200).

End Webhook.

(* ------------------------------------------------------------------ *)
(** ** Payment Lifecycle Coordinator: [POST /api/payments/process]

    The body fields are [None] when absent or of the wrong type (the
    [paymentProcessRequestSchema] check).  The three providers are given by
    [Services]: [None] means the provider call throws.  Their floating-point
    amounts enter the messages only through [toFixed(2)], given here as the
    formatted strings. *)

Module Payments.

Record ProcessReq := {
  pr_sessionId : option string;
  pr_amount : option Z;
  pr_vendorPhone : option string;
}.

Record Conversion := {
  conv_conversionId : string;
  conv_amountUSDC_fixed2 : string;
  conv_amountFiat_fixed2 : string;
  conv_fee_fixed2 : string;
}.

Record Services := {
  svc_offRampUSDC : option Conversion;
  svc_sendUSDC : option string;      (* transactionHash *)
  svc_createPayout : option string;  (* payoutId *)
}.

(** [paymentProcessRequestSchema.parse(req.body)] *)
Definition parse (r : ProcessReq) : M (string * Z * string) :=
  match pr_sessionId r, pr_amount r, pr_vendorPhone r with
  | Some sid, Some a, Some ph => ret (sid, a, ph)
  | _, _, _ => throw "validation error"
  end.

Definition or_throw {A} (o : option A) (e : string) : M A :=
  match o with Some a => ret a | None => throw e end.

Definition is_approved (st : TransactionStatus) : bool :=
  match st with TxApproved => true | _ => false end.

(** The settlement steps of the route, from the currency conversion to
    the final message. *)
Definition settle (env : Env) (svc : Services) (sid : string) : M Z :=
  (* Step 1: currency conversion *)
  log_settlement (OffRampUSDC sid);;;
  conv <-- or_throw (svc_offRampUSDC svc) "conversion failed";;
  Storage.updateTransaction sid (tx_set_conversionId (conv_conversionId conv));;;
  Storage.addMessage sid (assistant_msg env
    ("Converting " ++ conv_amountUSDC_fixed2 conv ++ " USDC to ₹"
     ++ conv_amountFiat_fixed2 conv ++ " INR via Coinbase...")%string);;;
  (* Step 2: USDC transfer *)
  log_settlement (SendUSDC sid);;;
  hash <-- or_throw (svc_sendUSDC svc) "transfer failed";;
  Storage.updateTransaction sid (tx_set_hash hash);;;
  (* Step 3: payout *)
  log_settlement (CreatePayout sid);;;
  payout <-- or_throw (svc_createPayout svc) "payout failed";;
  Storage.updateTransaction sid (tx_set_payout payout (env_now env));;;
  Storage.updateSession sid (set_journeyStatus JourneyCompleted);;;
  Storage.addMessage sid (assistant_msg env
    ("Payment successful! 
✅ Converted " ++ conv_amountUSDC_fixed2 conv ++ " USDC to ₹"
     ++ conv_amountFiat_fixed2 conv ++ " INR
✅ Offramping fee: $" ++ conv_fee_fixed2 conv ++ "
✅ Funds sent to vendor via Stripe
✅ Transaction hash: " ++ substring 0 10 hash ++ "...

The vendor will contact you shortly to arrange delivery.")%string);;;
  ret 200.

(** The route's [catch] block: the transaction of the session named by
    the body, if any, is marked failed, and the answer is 500. *)
Definition on_error (req : ProcessReq) (_ : string) : M Z :=
  try_catch
    (s <-- (match pr_sessionId req with
            | Some sid => Storage.getSession sid
            | None => ret None
            end);;
     match s, pr_sessionId req with
     | Some s, Some sid =>
         match s_transaction s with
         | Some _ => Storage.updateTransaction sid (tx_set_status TxFailed)
         | None => ret tt
         end
     | _, _ => ret tt
     end)
    (fun _ => ret tt);;;
  ret 500.

(** The handler; the number returned is the HTTP status sent. *)
Definition handle_process (env : Env) (svc : Services) (req : ProcessReq) : M Z :=
  try_catch
    (body <-- parse req;;
     let '(sid, amount, vendorPhone) := body in
     s <-- Storage.getSession sid;;
     match s with
     | None => ret 404
     | Some s =>
       match s_selectedVendor s with
       | None => ret 404
       | Some vendor =>
         let start : M bool :=
           match s_transaction s with
           | None =>
               Storage.setTransaction sid
                 {| tx_id := env_uuid env; tx_vendorId := v_id vendor;
                    tx_amount := amount; tx_currency := "INR";
                    tx_status := TxProcessing; tx_coinbaseConversionId := None;
                    tx_locusTransactionHash := None; tx_stripePayoutId := None;
                    tx_createdAt := env_now env; tx_completedAt := None |};;;
               ret true
           | Some t =>
               if negb (is_approved (tx_status t)) then ret false
               else Storage.updateTransaction sid (tx_set_status TxProcessing);;;
                    ret true
           end in
         go <-- start;;
         if negb go then ret 400 else
         settle env svc sid
       end
     end)
    (on_error req).

End Payments.

(* ------------------------------------------------------------------ *)
(** ** JavaScript [parseInt] on a query string

    [parseInt(s)] without a radix: leading white space is skipped, then an
    optional sign, then a ["0x"]/["0X"] prefix selects base 16; the value
    is that of the longest run of digits of the base, and [NaN] ([None])
    when the run is empty.  [parseInt(undefined)] parses the string
    ["undefined"], hence [NaN].  White space is that of the ECMAScript
    grammar: the ASCII set (space, tab, line feed, vertical tab, form
    feed, carriage return) and the Unicode spaces listed at [ws_len]. *)

Module ParseInt.

Definition is_ws (c : ascii) : bool :=
  let n := nat_of_ascii c in
  ((n =? 32) || ((9 <=? n) && (n <=? 13)))%nat.

(** The number of bytes of the white space character ([StrWhiteSpaceChar]
    of the ECMAScript grammar) that starts [s], or 0.  Besides the ASCII
    ones these are, in UTF-8, U+00A0, U+1680, U+2000 to U+200A, U+2028,
    U+2029, U+202F, U+205F, U+3000 and U+FEFF. *)
Definition ws_len (s : string) : nat :=
  match s with
  | EmptyString => 0
  | String c r =>
      let n := nat_of_ascii c in
      if is_ws c then 1
      else if n =? 194 then
        match r with
        | String c2 _ => if nat_of_ascii c2 =? 160 then 2 else 0
        | EmptyString => 0
        end
      else if (n =? 225) || (n =? 226) || (n =? 227) || (n =? 239) then
        match r with
        | String c2 (String c3 _) =>
            let n2 := nat_of_ascii c2 in
            let n3 := nat_of_ascii c3 in
            if ((n =? 225) && (n2 =? 154) && (n3 =? 128))
               || ((n =? 226) && (n2 =? 128)
                   && (((128 <=? n3) && (n3 <=? 138)) || (n3 =? 168)
                       || (n3 =? 169) || (n3 =? 175)))
               || ((n =? 226) && (n2 =? 129) && (n3 =? 159))
               || ((n =? 227) && (n2 =? 128) && (n3 =? 128))
               || ((n =? 239) && (n2 =? 187) && (n3 =? 191))
            then 3 else 0
        | _ => 0
        end
      else 0
  end%nat.

Fixpoint drop (k : nat) (s : string) : string :=
  match k, s with
  | O, _ => s
  | S k', String _ s' => drop k' s'
  | S _, EmptyString => EmptyString
  end.

(** Each round removes one white space character (at least one byte). *)
Fixpoint skip_ws_fuel (fuel : nat) (s : string) : string :=
  match fuel with
  | O => s
  | S f =>
      match ws_len s with
      | O => s
      | k => skip_ws_fuel f (drop k s)
      end
  end.

Definition skip_ws (s : string) : string := skip_ws_fuel (String.length s) s.

(** The value of a digit in base [radix], if it is one. *)
Definition digit_in (radix : Z) (c : ascii) : option Z :=
  let n := Z.of_nat (nat_of_ascii c) in
  let v := if (48 <=? n) && (n <=? 57) then Some (n - 48)
           else if (97 <=? n) && (n <=? 122) then Some (n - 87)
           else if (65 <=? n) && (n <=? 90) then Some (n - 55)
           else None in
  match v with Some d => if d <? radix then Some d else None | None => None end.

(** The value of the longest run of digits at the start of [s], [cur]
    being the value read so far. *)
Fixpoint digits_value (radix : Z) (s : string) (cur : option Z) : option Z :=
  match s with
  | EmptyString => cur
  | String c s' =>
      match digit_in radix c with
      | Some d => digits_value radix s' (Some (radix * default 0 cur + d))
      | None => cur
      end
  end.

Definition parseInt (s : string) : option Z :=
  let s1 := skip_ws s in
  let '(sign, s2) :=
    match s1 with
    | String c r =>
        if Ascii.eqb c "-"%char then (-1, r)
        else if Ascii.eqb c "+"%char then (1, r) else (1, s1)
    | EmptyString => (1, s1)
    end in
  let '(radix, s3) :=
    if String.prefix "0x" s2 || String.prefix "0X" s2
    then (16, substring 2 (String.length s2) s2) else (10, s2) in
  option_map (Z.mul sign) (digits_value radix s3 None).

(** [parseInt(req.query.attempt as string) || 1] *)
Definition attempt_of_query (q : option string) : Z :=
  or_num (match q with Some s => parseInt s | None => None end) 1.

End ParseInt.

(* ------------------------------------------------------------------ *)
(** ** More of the session store ([MemStorage] in storage.ts) *)

Definition set_selectedVendor (v : option Vendor) (s : Session) : Session :=
  {| s_id := s_id s; s_messages := s_messages s; s_vendors := s_vendors s;
     s_selectedVendor := v; s_currentCall := s_currentCall s;
     s_transaction := s_transaction s; s_journeyStatus := s_journeyStatus s;
     s_createdAt := s_createdAt s |}.

(** [{ ...call, status }] *)
Definition call_with_status (st : CallStatus) (c : Call) : Call :=
  {| call_id := call_id c; call_vendorId := call_vendorId c;
     call_status := st; call_duration := call_duration c;
     call_negotiatedPrice := call_negotiatedPrice c;
     call_conversationState := call_conversationState c;
     call_startedAt := call_startedAt c; call_completedAt := call_completedAt c |}.

Module StoreOps.

Definition setSelectedVendor (id : string) (v : Vendor) : M unit :=
  s <-- Storage.getSession id;;
  match s with
  | None => throw "Session not found"
  | Some s => put_session id (set_selectedVendor (Some v) s)
  end.

Definition setCurrentCall (id : string) (c : Call) : M unit :=
  s <-- Storage.getSession id;;
  match s with
  | None => throw "Session not found"
  | Some s => put_session id (set_currentCall (Some c) s)
  end.

End StoreOps.

(* ------------------------------------------------------------------ *)
(** ** Vendor selection: [POST /api/vendors/select]

    The body fields are [None] when absent or not strings
    ([vendorSelectRequestSchema]). *)

Module Select.

Record SelectReq := {
  sr_sessionId : option string;
  sr_vendorId : option string;
}.

Definition parse (r : SelectReq) : M (string * string) :=
  match sr_sessionId r, sr_vendorId r with
  | Some sid, Some vid => ret (sid, vid)
  | _, _ => throw "validation error"
  end.

(** [session.vendors.find(v => v.id === vendorId)] *)
Definition find_vendor (vs : list Vendor) (vid : string) : option Vendor :=
  List.find (fun v => String.eqb (v_id v) vid) vs.

Definition handle_select (env : Env) (req : SelectReq) : M Z :=
  try_catch
    (body <-- parse req;;
     let '(sid, vid) := body in
     s <-- Storage.getSession sid;;
     match s with
     | None => ret 404
     | Some s =>
         match find_vendor (s_vendors s) vid with
         | None => ret 404
         | Some vendor =>
             StoreOps.setSelectedVendor sid vendor;;;
             Storage.updateSession sid (set_journeyStatus CallingVendor);;;
             Storage.addMessage sid (assistant_msg env
               ("Great choice! I'll contact " ++ v_name vendor
                ++ " to negotiate the best price for you. Please wait while I make the call...")%string);;;
             ret 200
         end
     end)
    (fun _ => ret 500).

End Select.

(* ------------------------------------------------------------------ *)
(** ** Call initiation: [POST /api/calls/initiate]

    The source runs the mock call ([USE_MOCK_CALL = true]); modelled here
    is the request itself, up to its response.  The timers it schedules
    (later status changes and a random negotiated price) are not part of
    it.  Besides the session store the route writes two caches on the
    application object: [callSessions] (call id to session id) and
    [twimlStore] (key to document), read back by the legacy route
    [GET /api/calls/twiml/:callId]. *)

Module Initiate.

Record InitiateReq := {
  ir_baseUrl : string;
  ir_sessionId : option string;
  ir_vendorId : option string;
  ir_userBudget : option Z;
}.

Record App := {
  app_world : World;
  app_callSessions : gmap string string;
  app_twimlStore : gmap string string;
}.

Definition parse (r : InitiateReq) : M (string * string * Z) :=
  match ir_sessionId r, ir_vendorId r, ir_userBudget r with
  | Some sid, Some vid, Some b => ret (sid, vid, b)
  | _, _, _ => throw "validation error"
  end.

(** The call record created by the route. *)
Definition new_call (env : Env) (vendor : Vendor) (userBudget : Z) : Call :=
  {| call_id := env_uuid env; call_vendorId := v_id vendor;
     call_status := Initiating; call_duration := None;
     call_negotiatedPrice := None;
     call_conversationState :=
       Some {| cs_stage := SGreeting; cs_quantity := Some 5;
               cs_initialPrice := Some userBudget; cs_vendorPrice := None;
               cs_finalPrice := None; cs_attempts := 0 |};
     call_startedAt := Some (env_now env); call_completedAt := None |}.

(** The key under which the first document is cached. *)
Definition twiml_key (sid cid : string) : string :=
  (sid ++ "-" ++ cid ++ "-greeting")%string.

(** The store part of the route: the status sent and, on success, the
    session id, the call and the document to cache. *)
Definition initiate_store (env : Env) (req : InitiateReq)
    : M (Z * option (string * Call * string)) :=
  try_catch
    (body <-- parse req;;
     let '(sid, _, userBudget) := body in
     s <-- Storage.getSession sid;;
     match s with
     | None => ret (404, None)
     | Some s =>
         match s_selectedVendor s with
         | None => ret (404, None)
         | Some vendor =>
             let call := new_call env vendor userBudget in
             StoreOps.setCurrentCall sid call;;;
             let twiml := Twilio.generateConversationalTwiML (call_id call) sid
                            "greeting" (ir_baseUrl req)
                            (call_conversationState call) 1 in
             Storage.updateCall sid (call_with_status Ringing);;;
             ret (200, Some (sid, call, twiml))
         end
     end)
    (fun _ => ret (500, None)).

(** The whole route: the store part, then the two caches. *)
Definition handle_initiate (env : Env) (req : InitiateReq) (a : App) : Z * App :=
  match initiate_store env req (app_world a) with
  | (Ok (code, Some (sid, call, twiml)), w') =>
      (code, {| app_world := w';
                app_callSessions := <[call_id call := sid]> (app_callSessions a);
                app_twimlStore :=
                  <[twiml_key sid (call_id call) := twiml]> (app_twimlStore a) |})
  | (Ok (code, None), w') =>
      (code, {| app_world := w'; app_callSessions := app_callSessions a;
                app_twimlStore := app_twimlStore a |})
  | (Throw _, w') =>
      (500, {| app_world := w'; app_callSessions := app_callSessions a;
               app_twimlStore := app_twimlStore a |})
  end.

(** [GET /api/calls/twiml/:callId]: the cached document or a 404. *)
Definition legacy_twiml (a : App) (callId : string) : option string :=
  app_twimlStore a !! callId.

End Initiate.

(* ------------------------------------------------------------------ *)
(** ** TwiML replay: [ALL /api/calls/twiml/:sessionId/:callId/:stage] *)

Module TwimlRoute.

Definition errorTwiML : string :=
  Twilio.lines
    [ Twilio.xml_header; "<Response>";
      ("  " ++ Twilio.say_open)%string;
      "    क्षमा करें, कुछ तकनीकी समस्या हुई है। कृपया कुछ देर बाद फिर से कोशिश करें।";
      "  </Say>";
      "  <Hangup/>";
      "</Response>" ].

(** [session.currentCall.conversationState || {...}] *)
Definition default_state : ConversationState :=
  {| cs_stage := SGreeting; cs_quantity := Some 5; cs_initialPrice := Some 8000;
     cs_vendorPrice := None; cs_finalPrice := None; cs_attempts := 0 |}.

Definition handle_twiml (sessionId callId stage baseUrl : string)
    (attemptQuery : option string) : M string :=
  try_catch
    (let attempt := ParseInt.attempt_of_query attemptQuery in
     s <-- try_catch (Storage.getSession sessionId) (fun _ => ret None);;
     match s with
     | None => ret errorTwiML
     | Some s =>
         match s_currentCall s with
         | None => ret errorTwiML
         | Some call =>
             let cs := match call_conversationState call with
                       | Some c => c
                       | None => default_state
                       end in
             ret (Twilio.generateConversationalTwiML callId sessionId stage
                    baseUrl (Some cs) attempt)
         end
     end)
    (fun _ => ret errorTwiML).

End TwimlRoute.

(* ------------------------------------------------------------------ *)
(** ** Notions used by the properties *)

Import Gather.

Definition is_timeout (o : Outcome) : Prop :=
  o = NoInputTimeout \/ o = StageTimeout.

(** The session [sid] with its current call replaced. *)
Definition world_with_call (w : World) (sid : string) (s : Session) (c : Call) : World :=
  {| w_sessions := <[sid := set_currentCall (Some c) s]> (w_sessions w);
     w_log := w_log w |}.

Definition is_terminal_stage (s : Stage) : bool :=
  match s with
  | SFinalAgreement | SNoSaree | SEnded | STimeout => true
  | _ => false
  end.

(** A stored state at [greeting] with two failed attempts. *)
Definition greeting_two_attempts : ConversationState :=
  {| cs_stage := SGreeting; cs_quantity := Some 5; cs_initialPrice := Some 8000;
     cs_vendorPrice := None; cs_finalPrice := None; cs_attempts := 2 |}.

(** What a gather request decides on the current store, read the way the
    handler reads it. *)
Definition turn_outcome (w : World) (req : GatherReq) : option Outcome :=
  match stage_of_string (gr_stage req), w_sessions w !! gr_sessionId req with
  | Some st, Some s =>
      match s_currentCall s with
      | Some call =>
          Some (decide st (speechResult req) (digits req)
                  (normalize (call_conversationState call)))
      | None => None
      end
  | _, _ => None
  end.

(** A failed turn: at [greeting] an input that is neither a yes nor a no,
    at the other stages an empty input. *)
Definition failed_input (st : Stage) (s d : string) : bool :=
  match st with
  | SGreeting => negb (greeting_yes s d) && negb (greeting_no s d)
  | _ => negb (has_input s d)
  end.

(** A concrete store: session "s1" calling vendor "v1", the call at
    [askRequirements] with no failed attempt yet. *)
Definition demo_state (st : Stage) (np : option Z) : ConversationState :=
  {| cs_stage := st; cs_quantity := Some 5; cs_initialPrice := Some 8000;
     cs_vendorPrice := None; cs_finalPrice := np; cs_attempts := 0 |}.

Definition demo_call (st : Stage) (np : option Z) : Call :=
  {| call_id := "c1"; call_vendorId := "v1"; call_status := InProgress;
     call_duration := None; call_negotiatedPrice := np;
     call_conversationState := Some (demo_state st np);
     call_startedAt := Some "t0"; call_completedAt := None |}.

Definition demo_session (st : Stage) (np : option Z) : Session :=
  {| s_id := "s1"; s_messages := []; s_vendors := [];
     s_selectedVendor := Some {| v_id := "v1"; v_name := "Vendor";
                                 v_phone := "+910000000000" |};
     s_currentCall := Some (demo_call st np); s_transaction := None;
     s_journeyStatus := CallingVendor; s_createdAt := "t0" |}.

Definition demo_world (st : Stage) (np : option Z) : World :=
  {| w_sessions := {[ "s1" := demo_session st np ]}; w_log := [] |}.

Definition demo_env : Env := {| env_uuid := "u1"; env_now := "t1" |}.

Definition demo_req (st : string) (speech digits : option string) : GatherReq :=
  {| gr_baseUrl := "https://example.test"; gr_sessionId := "s1";
     gr_callId := "c1"; gr_stage := st; gr_SpeechResult := speech;
     gr_Digits := digits |}.

(** The session after the status webhook applied the mapping [m] for the
    call [call] with duration [d]. *)
Definition apply_mapping (env : Env) (m : Webhook.Mapping) (d : Z)
    (s : Session) (call : Call) : Session :=
  let s1 := if Webhook.toPayment m then set_journeyStatus ProcessingPayment s else s in
  let s2 := set_currentCall
              (Some (call_set_status (Webhook.mappedStatus m) (Some d)
                       (if Webhook.is_final_status (Webhook.mappedStatus m)
                        then Some (env_now env) else None) call)) s1 in
  let s3 := if Webhook.shouldResetJourney m
            then set_journeyStatus SelectingVendor s2 else s2 in
  match Webhook.userMessage m with
  | Some content => set_messages (s_messages s3 ++ [assistant_msg env content]) s3
  | None => s3
  end.

(** The messages a status event appends. *)
Definition mapping_messages (env : Env) (m : Webhook.Mapping) : list Message :=
  match Webhook.userMessage m with
  | Some content => [assistant_msg env content]
  | None => []
  end.

(** The status of the current call of a session. *)
Definition call_status_of (s : Session) : option CallStatus :=
  option_map call_status (s_currentCall s).

(** A ["completed"] event of 90 s for session "s1". *)
Definition completed_90 : Webhook.WebhookReq :=
  {| Webhook.wr_sessionId := "s1"; Webhook.wr_callId := "c1";
     Webhook.wr_CallStatus := "completed"; Webhook.wr_CallDuration := Some 90 |}.

(** The terminal stages of the renderer: those rendered as a closing
    prompt and a hangup, with no gather. *)
Definition render_terminal (stage : string) : bool :=
  String.eqb stage "finalAgreement" || String.eqb stage "noSaree"
  || String.eqb stage "ended".

(** The closing lines of a document rendered at the attempt threshold. *)
Definition apology_tail : list string :=
  [ ("  " ++ Twilio.say_open)%string;
    ("    " ++ Twilio.apology)%string;
    "  </Say>";
    "  <Hangup/>";
    "</Response>" ].

(** The first lines of a document of a non-terminal stage: the header and
    the gather directive, whose action posts to the gather route with the
    attempt number and which speaks the stage prompt. *)
Definition gather_head (callId sessionId stage baseUrl : string)
    (cd : option ConversationState) (attempt : Z) : list string :=
  [ Twilio.xml_header;
    "<Response>";
    Str.lit "  <Gather input=^speech dtmf^ timeout=^5^ speechTimeout=^3^ language=^hi-IN^ ";
    (Str.lit "          action=^"
     ++ (baseUrl ++ "/api/calls/gather/" ++ sessionId ++ "/" ++ callId ++ "/"
         ++ stage ++ "?attempt=" ++ Str.Z_toString attempt)
     ++ Str.lit "^ method=^POST^ numDigits=^10^>")%string;
    ("    " ++ Twilio.say_open ++ snd (Twilio.script_and_message stage cd)
     ++ "</Say>")%string;
    "  </Gather>" ].

(** The last lines of such a document below the threshold: the stage's
    fallback prompt and a redirect (GET) to the TwiML route of the same
    session, call and stage at the next attempt. *)
Definition retry_tail (callId sessionId stage baseUrl : string)
    (cd : option ConversationState) (attempt : Z) : list string :=
  [ ("  " ++ Twilio.say_open
     ++ Twilio.fallback (fst (Twilio.script_and_message stage cd)) ++ "</Say>")%string;
    (Str.lit "  <Redirect method=^GET^>"
     ++ (baseUrl ++ "/api/calls/twiml/" ++ sessionId ++ "/" ++ callId ++ "/"
         ++ stage ++ "?attempt=" ++ Str.Z_toString (attempt + 1))
     ++ "</Redirect>")%string;
    "</Response>" ].

(** A transaction of 9000 INR for vendor "v1" with status [st]. *)
Definition demo_tx (st : TransactionStatus) : Transaction :=
  {| tx_id := "t1"; tx_vendorId := "v1"; tx_amount := 9000; tx_currency := "INR";
     tx_status := st; tx_coinbaseConversionId := None;
     tx_locusTransactionHash := None; tx_stripePayoutId := None;
     tx_createdAt := "t0"; tx_completedAt := None |}.

(** Session "s1" with or without a selected vendor, holding [tx]. *)
Definition pay_session (vendor : bool) (tx : option Transaction) : Session :=
  {| s_id := "s1"; s_messages := []; s_vendors := [];
     s_selectedVendor :=
       if vendor then Some {| v_id := "v1"; v_name := "Vendor";
                              v_phone := "+910000000000" |}
       else None;
     s_currentCall := None; s_transaction := tx;
     s_journeyStatus := ProcessingPayment; s_createdAt := "t0" |}.

Definition pay_world (vendor : bool) (tx : option Transaction) : World :=
  {| w_sessions := {[ "s1" := pay_session vendor tx ]}; w_log := [] |}.

(** Providers that all succeed. *)
Definition svc_ok : Payments.Services :=
  {| Payments.svc_offRampUSDC :=
       Some {| Payments.conv_conversionId := "cv1";
               Payments.conv_amountUSDC_fixed2 := "108.43";
               Payments.conv_amountFiat_fixed2 := "9000.00";
               Payments.conv_fee_fixed2 := "1.08" |};
     Payments.svc_sendUSDC := Some "0xabcdef0123456789";
     Payments.svc_createPayout := Some "po1" |}.

(** A well-formed process request for session "s1". *)
Definition pay_req : Payments.ProcessReq :=
  {| Payments.pr_sessionId := Some "s1"; Payments.pr_amount := Some 9000;
     Payments.pr_vendorPhone := Some "+910000000000" |}.

(** A process request for session "s1" without an amount. *)
Definition pay_req_no_amount : Payments.ProcessReq :=
  {| Payments.pr_sessionId := Some "s1"; Payments.pr_amount := None;
     Payments.pr_vendorPhone := Some "+910000000000" |}.

(** The status of the transaction of session [sid]. *)
Definition session_tx_status (w : World) (sid : string) : option TransactionStatus :=
  match w_sessions w !! sid with
  | Some s => option_map tx_status (s_transaction s)
  | None => None
  end.

(** A store step on session [id] that touches nothing else: the
    settlement log and every other session are as they were. *)
Definition frame_ok (id : string) (w w' : World) : Prop :=
  w_log w' = w_log w /\
  forall id', id' <> id -> w_sessions w' !! id' = w_sessions w !! id'.

(** The demo call at stage [st] after [a] failed attempts, and the
    store holding it. *)
Definition retry_call (st : Stage) (a : Z) : Call :=
  call_set_conversation (with_attempts a (demo_state st None)) None
    (demo_call st None).

Definition retry_session (st : Stage) (a : Z) : Session :=
  set_currentCall (Some (retry_call st a)) (demo_session st None).

Definition retry_world (st : Stage) (a : Z) : World :=
  {| w_sessions := {[ "s1" := retry_session st a ]}; w_log := [] |}.

(* ================================================================== *)
(** * Properties *)

(** ** Input classification *)

Module GatherFacts.
Import Gather.

Lemma has_input_false (s d : string) :
  has_input s d = false -> s = EmptyString /\ d = EmptyString.
Proof.
  unfold has_input. intros H.
  apply orb_false_iff in H as [H1 H2].
  apply negb_false_iff, String.eqb_eq in H1.
  apply negb_false_iff, String.eqb_eq in H2. auto.
Qed.

Lemma negotiate_yes_has_input (s d : string) :
  negotiate_yes s d = true -> has_input s d = true.
Proof.
  intros H. destruct (has_input s d) eqn:E; [reflexivity|].
  apply has_input_false in E as [-> ->]. discriminate H.
Qed.

Lemma counter_yes_has_input (s d : string) :
  counter_yes s d = true -> has_input s d = true.
Proof.
  intros H. destruct (has_input s d) eqn:E; [reflexivity|].
  apply has_input_false in E as [-> ->]. discriminate H.
Qed.

Lemma greeting_yes_has_input (s d : string) :
  greeting_yes s d = true -> has_input s d = true.
Proof.
  intros H. destruct (has_input s d) eqn:E; [reflexivity|].
  apply has_input_false in E as [-> ->]. discriminate H.
Qed.

Lemma greeting_no_has_input (s d : string) :
  greeting_no s d = true -> has_input s d = true.
Proof.
  intros H. destruct (has_input s d) eqn:E; [reflexivity|].
  apply has_input_false in E as [-> ->]. discriminate H.
Qed.

(** The initial price of the normalised state is always present. *)
Lemma normalize_initialPrice (o : option ConversationState) :
  cs_initialPrice (normalize o) = Some (initialPrice_or (normalize o)).
Proof.
  destruct o as [c|]; unfold initialPrice_or, or_num; simpl; [|reflexivity].
  destruct (cs_initialPrice c) as [z|]; simpl.
  - destruct (z =? 0) eqn:E; simpl; [reflexivity|]. rewrite E. reflexivity.
  - reflexivity.
Qed.

(** [math_round_half n] is the integer nearest to [n / 2], halves rounded
    up, as [Math.round] does. *)
Lemma math_round_half_spec (n : Z) :
  0 <= 2 * math_round_half n - n <= 1.
Proof.
  unfold math_round_half.
  pose proof (Z.div_mod (n + 1) 2 ltac:(lia)).
  pose proof (Z.mod_pos_bound (n + 1) 2 ltac:(lia)). lia.
Qed.

(** An empty turn on a retrying stage: one more attempt, or a timeout. *)
Lemma decide_empty (stage onMax : Stage) (c : ConversationState) :
  transition stage "" "" c = retry stage onMax c ->
  onMax = STimeout ->
  stage <> STimeout ->
  (cs_attempts c + 1 >= Twilio.maxAttempts -> is_timeout (decide stage "" "" c)) /\
  (cs_attempts c + 1 < Twilio.maxAttempts ->
     decide stage "" "" c
     = Advance stage (with_stage stage (with_attempts (cs_attempts c + 1) c))).
Proof.
  intros Ht -> Hs. unfold decide. rewrite Ht. unfold retry. simpl.
  split; intros Ha.
  - destruct (cs_attempts c >=? Twilio.maxAttempts) eqn:E; [left; reflexivity|].
    right. replace (cs_attempts c + 1 >=? Twilio.maxAttempts) with true
      by (symmetry; rewrite Z.geb_leb; apply Z.leb_le; lia). reflexivity.
  - replace (cs_attempts c >=? Twilio.maxAttempts) with false
      by (symmetry; rewrite Z.geb_leb; apply Z.leb_gt; lia).
    replace (cs_attempts c + 1 >=? Twilio.maxAttempts) with false
      by (symmetry; rewrite Z.geb_leb; apply Z.leb_gt; lia).
    simpl. destruct stage; try reflexivity. contradiction.
Qed.

End GatherFacts.

Import Gather GatherFacts.

(** ** C1: the [negotiatePrice] turn

    (C1) At stage [negotiatePrice], with the handler's initialised state
    [c] (initial price [ip], 8000 when unset): an affirmative input sets
    [finalPrice = ip] and moves to [finalAgreement] with attempts reset; a
    non-empty non-affirmative input sets [vendorPrice] to the first number
    of the transcript ([ip + 2000] when there is none), sets [finalPrice]
    to [Math.round((ip + vendorPrice) / 2)] and moves to [counterOffer]
    with attempts reset; an empty input adds one attempt and stays, or
    times out once the incremented count reaches 3. *)
Theorem negotiatePrice_turn (stored : option ConversationState)
    (speech digits : string) :
  let c := normalize stored in
  let ip := initialPrice_or c in
  (negotiate_yes speech digits = true ->
     exists c', decide SNegotiatePrice speech digits c = Advance SFinalAgreement c'
       /\ cs_finalPrice c' = Some ip /\ cs_initialPrice c' = Some ip
       /\ cs_attempts c' = 0) /\
  (negotiate_yes speech digits = false -> has_input speech digits = true ->
     let vp := match Str.first_number speech with
               | Some n => n | None => ip + 2000 end in
     exists c', decide SNegotiatePrice speech digits c = Advance SCounterOffer c'
       /\ cs_vendorPrice c' = Some vp
       /\ cs_finalPrice c' = Some (math_round_half (ip + vp))
       /\ 0 <= 2 * math_round_half (ip + vp) - (ip + vp) <= 1
       /\ cs_attempts c' = 0) /\
  (has_input speech digits = false ->
     (cs_attempts c + 1 >= 3 -> is_timeout (decide SNegotiatePrice speech digits c)) /\
     (cs_attempts c + 1 < 3 ->
        exists c', decide SNegotiatePrice speech digits c = Advance SNegotiatePrice c'
          /\ cs_attempts c' = cs_attempts c + 1)).
Proof.
  intros c ip. split; [|split].
  - intros Hy. pose proof (negotiate_yes_has_input _ _ Hy) as Hi.
    unfold decide. rewrite Hi. simpl. rewrite Hy.
    eexists; split; [reflexivity|]. simpl.
    subst c ip. rewrite normalize_initialPrice. auto.
  - intros Hn Hi vp. unfold decide. rewrite Hi. simpl. rewrite Hn, Hi. simpl.
    eexists; split; [reflexivity|]. simpl.
    split; [reflexivity|]. split; [reflexivity|].
    split; [apply math_round_half_spec|reflexivity].
  - intros Hi. apply has_input_false in Hi as [-> ->].
    destruct (decide_empty SNegotiatePrice STimeout c eq_refl eq_refl
                ltac:(discriminate)) as [H1 H2].
    split; [exact H1|]. intros Ha. eexists. split; [exact (H2 Ha)|reflexivity].
Qed.

Lemma negotiatePrice_turn_witness :
  Str.first_number "nahi 9000" = Some 9000 /\
  exists c', decide SNegotiatePrice "nahi 9000" "" (normalize None)
             = Advance SCounterOffer c'
     /\ cs_vendorPrice c' = Some 9000
     /\ cs_finalPrice c' = Some (math_round_half (8000 + 9000))
     /\ 0 <= 2 * math_round_half (8000 + 9000) - (8000 + 9000) <= 1
     /\ cs_attempts c' = 0.
Proof.
  split; [reflexivity|].
  exact (proj1 (proj2 (negotiatePrice_turn None "nahi 9000" "")) eq_refl eq_refl).
Defined.

(** ** C2: the [counterOffer] turn *)

(** (C2, counterexample) Two inputs against the claim as stated: an empty
    turn at [counterOffer] stays at [counterOffer] (so the stage does not
    always resolve to [finalAgreement] in one turn), and a refusal when no
    [finalPrice] is stored sets [finalPrice] to 9500 rather than raising an
    existing price by 500. *)
Lemma counterOffer_claim_counterexample :
  ~ (forall stored speech digits,
       exists c', decide SCounterOffer speech digits (normalize stored)
                  = Advance SFinalAgreement c') /\
  ~ (forall stored speech digits,
       has_input speech digits = true -> counter_yes speech digits = false ->
       exists c', decide SCounterOffer speech digits (normalize stored)
                  = Advance SFinalAgreement c'
         /\ cs_finalPrice c' = option_map (Z.add 500)
                                 (cs_finalPrice (normalize stored))).
Proof.
  split.
  - intros H. destruct (H None EmptyString EmptyString) as [c' Hc].
    vm_compute in Hc. discriminate Hc.
  - intros H. destruct (H None "nahi"%string EmptyString eq_refl eq_refl)
      as [c' [Hc Hp]].
    vm_compute in Hc. injection Hc as <-. vm_compute in Hp. discriminate Hp.
Qed.

(** (C2, amended) At stage [counterOffer], with the handler's initialised
    state [c]: an affirmative input ("हाँ", "yes", "ठीक", "चलेगा" or digit
    1) moves to [finalAgreement] with [finalPrice] unchanged; any other
    non-empty input sets [finalPrice] to ([finalPrice], or 9000 when unset
    or 0) + 500 and moves to [finalAgreement]; both reset attempts.  An
    empty input adds one attempt and stays at [counterOffer], or times out
    once the incremented count reaches 3. *)
Theorem counterOffer_turn (stored : option ConversationState)
    (speech digits : string) :
  let c := normalize stored in
  (counter_yes speech digits = true ->
     exists c', decide SCounterOffer speech digits c = Advance SFinalAgreement c'
       /\ cs_finalPrice c' = cs_finalPrice c /\ cs_attempts c' = 0) /\
  (counter_yes speech digits = false -> has_input speech digits = true ->
     exists c', decide SCounterOffer speech digits c = Advance SFinalAgreement c'
       /\ cs_finalPrice c' = Some (or_num (cs_finalPrice c) 9000 + 500)
       /\ cs_attempts c' = 0) /\
  (has_input speech digits = false ->
     (cs_attempts c + 1 >= 3 -> is_timeout (decide SCounterOffer speech digits c)) /\
     (cs_attempts c + 1 < 3 ->
        exists c', decide SCounterOffer speech digits c = Advance SCounterOffer c'
          /\ cs_attempts c' = cs_attempts c + 1)).
Proof.
  intros c. split; [|split].
  - intros Hy. pose proof (counter_yes_has_input _ _ Hy) as Hi.
    unfold decide. rewrite Hi. simpl. rewrite Hy.
    eexists; split; [reflexivity|]. simpl. auto.
  - intros Hn Hi. unfold decide. rewrite Hi. simpl. rewrite Hn, Hi. simpl.
    eexists; split; [reflexivity|]. simpl. auto.
  - intros Hi. apply has_input_false in Hi as [-> ->].
    destruct (decide_empty SCounterOffer STimeout c eq_refl eq_refl
                ltac:(discriminate)) as [H1 H2].
    split; [exact H1|]. intros Ha. eexists. split; [exact (H2 Ha)|reflexivity].
Qed.

Lemma counterOffer_turn_witness :
  exists c', decide SCounterOffer "nahi" "" (normalize None)
             = Advance SFinalAgreement c'
     /\ cs_finalPrice c' = Some (or_num None 9000 + 500)
     /\ cs_attempts c' = 0.
Proof.
  exact (proj1 (proj2 (counterOffer_turn None "nahi" "")) eq_refl eq_refl).
Defined.

(** ** Effects of a gather turn on the store *)

Module GatherStore.

Lemma handle_gather_advance (env : Env) (req : GatherReq) (w : World)
    (s : Session) (call : Call) (stage next : Stage) (c' : ConversationState) :
  w_sessions w !! gr_sessionId req = Some s ->
  s_currentCall s = Some call ->
  stage_of_string (gr_stage req) = Some stage ->
  decide stage (speechResult req) (digits req)
    (normalize (call_conversationState call)) = Advance next c' ->
  handle_gather env req w =
    (Ok (Twilio.generateConversationalTwiML (gr_callId req) (gr_sessionId req)
           (stage_to_string next) (gr_baseUrl req) (Some c') 1),
     world_with_call w (gr_sessionId req) s
       (call_set_conversation c' (cs_finalPrice c') call)).
Proof.
  intros Hs Hc Hst Hd.
  unfold handle_gather. rewrite Hst.
  unfold try_catch, bind, ret, Storage.getSession. rewrite Hs, Hc, Hd.
  unfold Storage.updateCall, bind, Storage.getSession. rewrite Hs, Hc.
  reflexivity.
Qed.

Lemma handle_gather_timeout (env : Env) (req : GatherReq) (w : World)
    (s : Session) (call : Call) (stage : Stage) :
  w_sessions w !! gr_sessionId req = Some s ->
  s_currentCall s = Some call ->
  stage_of_string (gr_stage req) = Some stage ->
  is_timeout (decide stage (speechResult req) (digits req)
                (normalize (call_conversationState call))) ->
  exists content,
  handle_gather env req w =
    (Ok timeoutTwiML,
     {| w_sessions :=
          <[gr_sessionId req :=
              set_messages (s_messages s ++ [assistant_msg env content])
                (set_journeyStatus SelectingVendor
                   (set_currentCall
                      (Some (call_set_timeout (env_now env) call)) s))]>
            (w_sessions w);
        w_log := w_log w |}).
Proof.
  intros Hs Hc Hst Hd.
  unfold handle_gather. rewrite Hst.
  unfold try_catch, bind, ret, Storage.getSession. rewrite Hs, Hc.
  destruct Hd as [Hd|Hd]; rewrite Hd; eexists;
  unfold on_timeout, Storage.updateCall, Storage.updateSession,
    Storage.addMessage, put_session, bind, ret, Storage.getSession;
  rewrite Hs, Hc;
  repeat (first [ rewrite lookup_insert_eq | rewrite insert_insert_eq
                | progress simpl ]);
  reflexivity.
Qed.

End GatherStore.

(** ** C3: the attempts counter across transitions *)

Module AttemptsFacts.

Ltac split_ifs H :=
  repeat match type of H with
         | context [if ?b then _ else _] => destruct b eqn:?
         | context [match ?x with _ => _ end] =>
             lazymatch x with
             | (_, _) => fail
             | _ => destruct x eqn:?
             end
         end.

(** Every branch of the [switch] either resets attempts on a move, adds
    one attempt (staying, or forced out at the threshold), or is the
    default branch of a terminal stage. *)
Lemma transition_cases (stage : Stage) (s d : string)
    (c c1 : ConversationState) (next : Stage) :
  transition stage s d c = (next, c1) ->
  (next <> stage /\ cs_attempts c1 = 0)
  \/ (cs_attempts c1 = cs_attempts c + 1 /\ next = stage)
  \/ (cs_attempts c1 = cs_attempts c + 1 /\ cs_attempts c1 >= Twilio.maxAttempts
      /\ ((stage = SGreeting /\ next = SNoSaree) \/ next = STimeout))
  \/ (is_terminal_stage stage = true /\ next = SEnded /\ c1 = c).
Proof.
  intros H. destruct stage; unfold transition, retry in H; split_ifs H;
    injection H as <- <-; simpl;
    first [ left; split; [discriminate | reflexivity]
          | right; left; split; reflexivity
          | right; right; left; split; [reflexivity|];
            match goal with
            | E : (_ >=? _) = true |- _ => apply Z.geb_le in E
            end; split; [lia|]; auto
          | right; right; right; auto ].
Qed.

End AttemptsFacts.

(** (C3, counterexample) A third empty turn at [greeting] moves to
    [noSaree] and saves attempts = 3: a move to a different stage that
    does not reset the counter. *)
Lemma attempts_reset_counterexample :
  ~ (forall stage stored speech digits next c',
       decide stage speech digits (normalize stored) = Advance next c' ->
       next <> stage -> cs_attempts c' = 0).
Proof.
  intros H.
  assert (E : decide SGreeting "" "" (normalize (Some greeting_two_attempts))
              = Advance SNoSaree (with_stage SNoSaree
                  (with_attempts 3 (normalize (Some greeting_two_attempts)))))
    by reflexivity.
  specialize (H _ _ _ _ _ _ E ltac:(discriminate)). discriminate H.
Qed.

(** (C3, amended) On a turn that saves the conversation state, with [c]
    the handler's initialised state: a move to a different stage resets
    attempts to 0, except the forced move from [greeting] to [noSaree]
    (attempts + 1, at least 3) and the default move of a terminal URL
    stage to [ended] (attempts unchanged); a turn that stays on its stage
    sets attempts to attempts + 1, or leaves it unchanged at [ended].  A
    turn that ends in a timeout saves no conversation state: the call
    keeps the one it had. *)
Theorem attempts_on_transition :
  (forall stage stored speech digits next c',
     let c := normalize stored in
     decide stage speech digits c = Advance next c' ->
     (next <> stage /\ cs_attempts c' = 0)
     \/ (next = stage /\ cs_attempts c' = cs_attempts c + 1)
     \/ (stage = SGreeting /\ next = SNoSaree
         /\ cs_attempts c' = cs_attempts c + 1 /\ cs_attempts c' >= 3)
     \/ (is_terminal_stage stage = true /\ next = SEnded
         /\ cs_attempts c' = cs_attempts c)) /\
  (forall env req w s call stage,
     w_sessions w !! gr_sessionId req = Some s ->
     s_currentCall s = Some call ->
     stage_of_string (gr_stage req) = Some stage ->
     is_timeout (decide stage (speechResult req) (digits req)
                   (normalize (call_conversationState call))) ->
     exists s' call',
       w_sessions (snd (handle_gather env req w)) !! gr_sessionId req = Some s'
       /\ s_currentCall s' = Some call'
       /\ call_conversationState call' = call_conversationState call).
Proof.
  split.
  - intros stage stored speech digits next c' c H. unfold decide in H.
    destruct (negb (has_input speech digits) && (cs_attempts c >=? Twilio.maxAttempts));
      [discriminate|].
    destruct (transition stage speech digits c) as [n c1] eqn:Et.
    assert (Hn : n <> STimeout /\ next = n /\ c' = with_stage n c1)
      by (destruct n; simpl in H; try discriminate; injection H as <- <-; auto).
    destruct Hn as (Hn & -> & ->). simpl.
    destruct (AttemptsFacts.transition_cases _ _ _ _ _ _ Et)
      as [[? ?]|[[? ?]|[(? & ? & [[-> ->]|?])|(? & ? & ->)]]];
      [left | right; left | right; right; left | contradiction
      | right; right; right]; auto.
  - intros env req w s call stage Hs Hc Hst Ht.
    destruct (GatherStore.handle_gather_timeout env req w s call stage Hs Hc Hst Ht)
      as [content ->].
    simpl. rewrite lookup_insert_eq. do 2 eexists.
    split; [reflexivity|]. split; reflexivity.
Qed.

Lemma attempts_on_transition_witness :
  decide SGreeting "" "" (normalize (Some greeting_two_attempts))
    = Advance SNoSaree (with_stage SNoSaree
        (with_attempts 3 (normalize (Some greeting_two_attempts)))) /\
  let c := normalize (Some greeting_two_attempts) in
  let c' := with_stage SNoSaree (with_attempts 3 c) in
  (SNoSaree <> SGreeting /\ cs_attempts c' = 0)
  \/ (SNoSaree = SGreeting /\ cs_attempts c' = cs_attempts c + 1)
  \/ (SGreeting = SGreeting /\ SNoSaree = SNoSaree
      /\ cs_attempts c' = cs_attempts c + 1 /\ cs_attempts c' >= 3)
  \/ (is_terminal_stage SGreeting = true /\ SNoSaree = SEnded
      /\ cs_attempts c' = cs_attempts c).
Proof.
  assert (E : decide SGreeting "" "" (normalize (Some greeting_two_attempts))
              = Advance SNoSaree (with_stage SNoSaree
                  (with_attempts 3 (normalize (Some greeting_two_attempts)))))
    by reflexivity.
  split; [exact E|].
  exact (proj1 attempts_on_transition SGreeting (Some greeting_two_attempts)
           "" "" SNoSaree _ E).
Defined.

(** ** C4: consecutive failed turns end the call *)

Module RetryFacts.

Lemma stage_of_string_to_string (st : Stage) :
  stage_of_string (stage_to_string st) = Some st.
Proof. destruct st; reflexivity. Qed.

(** One failed turn below the threshold. *)
Lemma failed_turn (st : Stage) (s d : string) (c : ConversationState) :
  is_terminal_stage st = false ->
  failed_input st s d = true ->
  cs_attempts c < Twilio.maxAttempts ->
  (cs_attempts c + 1 < Twilio.maxAttempts ->
     decide st s d c = Advance st (with_stage st (with_attempts (cs_attempts c + 1) c))) /\
  (cs_attempts c + 1 >= Twilio.maxAttempts ->
     (st = SGreeting -> decide st s d c
        = Advance SNoSaree (with_stage SNoSaree (with_attempts (cs_attempts c + 1) c))) /\
     (st <> SGreeting -> is_timeout (decide st s d c))).
Proof.
  intros Ht Hf Ha.
  destruct st; try discriminate Ht.
  - simpl in Hf. apply andb_true_iff in Hf as [Hy Hn].
    apply negb_true_iff in Hy, Hn.
    unfold decide, transition, retry. rewrite Hy, Hn.
    replace (cs_attempts c >=? Twilio.maxAttempts) with false
      by (symmetry; rewrite Z.geb_leb; apply Z.leb_gt; lia).
    rewrite andb_false_r.
    split; intros Ha1.
    + replace (cs_attempts c + 1 >=? Twilio.maxAttempts) with false
        by (symmetry; rewrite Z.geb_leb; apply Z.leb_gt; lia). reflexivity.
    + replace (cs_attempts c + 1 >=? Twilio.maxAttempts) with true
        by (symmetry; rewrite Z.geb_leb; apply Z.leb_le; lia).
      split; [reflexivity|]. intros H; contradiction.
  - simpl in Hf. apply negb_true_iff, has_input_false in Hf as [-> ->].
    destruct (decide_empty SAskRequirements STimeout c eq_refl eq_refl
                ltac:(discriminate)) as [H1 H2].
    split; [exact H2|]. intros Ha1. split; [discriminate|]. auto.
  - simpl in Hf. apply negb_true_iff, has_input_false in Hf as [-> ->].
    destruct (decide_empty SNegotiatePrice STimeout c eq_refl eq_refl
                ltac:(discriminate)) as [H1 H2].
    split; [exact H2|]. intros Ha1. split; [discriminate|]. auto.
  - simpl in Hf. apply negb_true_iff, has_input_false in Hf as [-> ->].
    destruct (decide_empty SCounterOffer STimeout c eq_refl eq_refl
                ltac:(discriminate)) as [H1 H2].
    split; [exact H2|]. intros Ha1. split; [discriminate|]. auto.
Qed.

(** A persisted turn: the outcome read on the store, and the call saved
    with the new conversation state. *)
Lemma advance_step (env : Env) (req : GatherReq) (w : World) (s : Session)
    (call : Call) (st next : Stage) (c' : ConversationState) :
  w_sessions w !! gr_sessionId req = Some s ->
  s_currentCall s = Some call ->
  stage_of_string (gr_stage req) = Some st ->
  decide st (speechResult req) (digits req)
    (normalize (call_conversationState call)) = Advance next c' ->
  turn_outcome w req = Some (Advance next c') /\
  exists call',
    w_sessions (snd (handle_gather env req w)) !! gr_sessionId req
      = Some (set_currentCall (Some call') s)
    /\ call_conversationState call' = Some c'.
Proof.
  intros Hs Hc Hst Hd. split.
  - unfold turn_outcome. rewrite Hst, Hs, Hc, Hd. reflexivity.
  - rewrite (GatherStore.handle_gather_advance env req w s call st next c'
               Hs Hc Hst Hd).
    eexists. simpl. rewrite lookup_insert_eq. split; reflexivity.
Qed.

End RetryFacts.

(** (C4) At a non-terminal stage ([greeting], [askRequirements],
    [negotiatePrice], [counterOffer]) whose call starts with attempts = 0,
    three consecutive failed gather turns (each posted to the stage the
    previous document named, for the same session) stay on the stage
    twice and then end it: in [noSaree] from [greeting], in a timeout from
    the other stages. *)
Theorem failed_turns_reach_terminal (st : Stage) (env1 env2 : Env)
    (req1 req2 req3 : GatherReq) (w : World) (s : Session) (call : Call) :
  is_terminal_stage st = false ->
  w_sessions w !! gr_sessionId req1 = Some s ->
  s_currentCall s = Some call ->
  cs_attempts (normalize (call_conversationState call)) = 0 ->
  gr_sessionId req2 = gr_sessionId req1 ->
  gr_sessionId req3 = gr_sessionId req1 ->
  gr_stage req1 = stage_to_string st ->
  gr_stage req2 = stage_to_string st ->
  gr_stage req3 = stage_to_string st ->
  failed_input st (speechResult req1) (digits req1) = true ->
  failed_input st (speechResult req2) (digits req2) = true ->
  failed_input st (speechResult req3) (digits req3) = true ->
  let w1 := snd (handle_gather env1 req1 w) in
  let w2 := snd (handle_gather env2 req2 w1) in
  (exists c1, turn_outcome w req1 = Some (Advance st c1) /\ cs_attempts c1 = 1) /\
  (exists c2, turn_outcome w1 req2 = Some (Advance st c2) /\ cs_attempts c2 = 2) /\
  (exists o3, turn_outcome w2 req3 = Some o3 /\
     (st = SGreeting -> exists c3, o3 = Advance SNoSaree c3) /\
     (st <> SGreeting -> is_timeout o3)).
Proof.
  intros Ht Hs Hc H0 Hid2 Hid3 Hst1 Hst2 Hst3 Hf1 Hf2 Hf3 w1 w2.
  pose proof (RetryFacts.stage_of_string_to_string st) as Hp.
  set (c0 := normalize (call_conversationState call)) in *.
  (* turn 1 *)
  destruct (RetryFacts.failed_turn st _ _ c0 Ht Hf1 ltac:(unfold Twilio.maxAttempts; lia))
    as [A1 _].
  pose proof (A1 ltac:(unfold Twilio.maxAttempts; lia)) as D1.
  destruct (RetryFacts.advance_step env1 req1 w s call st st _ Hs Hc
              ltac:(rewrite Hst1; exact Hp) D1) as [O1 [call1 [L1 C1]]].
  set (c1 := with_stage st (with_attempts (cs_attempts c0 + 1) c0)) in *.
  (* turn 2 *)
  assert (Hs2 : w_sessions w1 !! gr_sessionId req2
                = Some (set_currentCall (Some call1) s))
    by (rewrite Hid2; exact L1).
  set (c1n := normalize (call_conversationState call1)).
  assert (Ha1 : cs_attempts c1n = 1)
    by (unfold c1n; rewrite C1; simpl; lia).
  destruct (RetryFacts.failed_turn st _ _ c1n Ht Hf2 ltac:(unfold Twilio.maxAttempts; lia))
    as [A2 _].
  pose proof (A2 ltac:(unfold Twilio.maxAttempts; lia)) as D2.
  destruct (RetryFacts.advance_step env2 req2 w1 _ call1 st st _ Hs2 eq_refl
              ltac:(rewrite Hst2; exact Hp) D2) as [O2 [call2 [L2 C2]]].
  (* turn 3 *)
  assert (Hs3 : w_sessions w2 !! gr_sessionId req3
                = Some (set_currentCall (Some call2) (set_currentCall (Some call1) s)))
    by (rewrite Hid3, <- Hid2; exact L2).
  set (c2n := normalize (call_conversationState call2)).
  assert (Ha2 : cs_attempts c2n = 2)
    by (unfold c2n; rewrite C2; simpl; lia).
  destruct (RetryFacts.failed_turn st _ _ c2n Ht Hf3 ltac:(unfold Twilio.maxAttempts; lia))
    as [_ B3].
  destruct (B3 ltac:(unfold Twilio.maxAttempts; lia)) as [G3 T3].
  split; [|split].
  - eexists. split; [exact O1|]. simpl. lia.
  - eexists. split; [exact O2|]. simpl. lia.
  - eexists. split.
    + unfold turn_outcome. rewrite Hst3, Hp, Hs3. simpl. reflexivity.
    + split.
      * intros E. eexists. exact (G3 E).
      * exact T3.
Qed.

Lemma failed_turns_reach_terminal_witness :
  let req := demo_req "askRequirements" None None in
  let w := demo_world SAskRequirements None in
  let w1 := snd (handle_gather demo_env req w) in
  let w2 := snd (handle_gather demo_env req w1) in
  (exists c1, turn_outcome w req = Some (Advance SAskRequirements c1)
              /\ cs_attempts c1 = 1) /\
  (exists c2, turn_outcome w1 req = Some (Advance SAskRequirements c2)
              /\ cs_attempts c2 = 2) /\
  (exists o3, turn_outcome w2 req = Some o3 /\
     (SAskRequirements = SGreeting -> exists c3, o3 = Advance SNoSaree c3) /\
     (SAskRequirements <> SGreeting -> is_timeout o3)).
Proof.
  exact (failed_turns_reach_terminal SAskRequirements demo_env demo_env
           (demo_req "askRequirements" None None)
           (demo_req "askRequirements" None None)
           (demo_req "askRequirements" None None)
           (demo_world SAskRequirements None)
           (demo_session SAskRequirements None)
           (demo_call SAskRequirements None)
           eq_refl eq_refl eq_refl eq_refl eq_refl eq_refl
           eq_refl eq_refl eq_refl eq_refl eq_refl eq_refl).
Defined.

(** ** The status webhook *)

Module WebhookFacts.
Import Webhook.

Ltac run_store Hc :=
  repeat (first [ rewrite lookup_insert_eq | rewrite insert_insert_eq
                | rewrite Hc | progress simpl ]).

(** The webhook on an existing session with a current call: one update of
    that session, described by [apply_mapping]. *)
Lemma webhook_effect (env : Env) (req : WebhookReq) (w : World)
    (s : Session) (call : Call) :
  w_sessions w !! wr_sessionId req = Some s ->
  s_currentCall s = Some call ->
  handle_webhook env req w =
    (Ok 200,
     {| w_sessions :=
          <[wr_sessionId req :=
              apply_mapping env
                (map_status (wr_CallStatus req) (duration req)
                   (call_negotiatedPrice call))
                (duration req) s call]> (w_sessions w);
        w_log := w_log w |}).
Proof.
  intros Hs Hc.
  unfold handle_webhook, apply_mapping, try_catch, bind, ret,
    Storage.getSession.
  rewrite Hs, Hc.
  destruct (map_status (wr_CallStatus req) (duration req)
              (call_negotiatedPrice call)) as [st msg reset pay].
  simpl.
  destruct pay, reset, msg;
    unfold Storage.updateCall, Storage.updateSession, Storage.addMessage,
      put_session, bind, ret, Storage.getSession;
    rewrite ?Hs; run_store Hc; reflexivity.
Qed.

(** The webhook never changes the negotiated price of the call. *)
Lemma apply_mapping_call (env : Env) (m : Mapping) (d : Z) (s : Session)
    (call : Call) :
  s_currentCall (apply_mapping env m d s call)
  = Some (call_set_status (mappedStatus m) (Some d)
            (if is_final_status (mappedStatus m) then Some (env_now env) else None)
            call).
Proof.
  unfold apply_mapping.
  destruct (toPayment m), (shouldResetJourney m), (userMessage m); reflexivity.
Qed.

Lemma apply_mapping_messages (env : Env) (m : Mapping) (d : Z) (s : Session)
    (call : Call) :
  s_messages (apply_mapping env m d s call) = s_messages s ++ mapping_messages env m.
Proof.
  unfold apply_mapping, mapping_messages.
  destruct (toPayment m), (shouldResetJourney m), (userMessage m);
    simpl; rewrite ?app_nil_r; reflexivity.
Qed.

Lemma apply_mapping_journey (env : Env) (m : Mapping) (d : Z) (s : Session)
    (call : Call) :
  s_journeyStatus (apply_mapping env m d s call)
  = if shouldResetJourney m then SelectingVendor
    else if toPayment m then ProcessingPayment else s_journeyStatus s.
Proof.
  unfold apply_mapping.
  destruct (toPayment m), (shouldResetJourney m), (userMessage m); reflexivity.
Qed.

End WebhookFacts.

Import WebhookFacts.

(** (C5) A ["completed"] status event for an existing session with a
    current call: under 10 s the call becomes [hung-up]; otherwise, with no
    negotiated price (unset or 0, the JavaScript falsy values) and under
    60 s, it becomes [hung-up]; otherwise, with a negotiated price, it
    becomes [completed] and the journey moves to [processing-payment].
    The hung-up cases reset the journey to [selecting-vendor] and append
    an assistant message inviting a new vendor choice; the success case
    appends an assistant message with the price and a payment prompt. *)
Theorem completed_status_classification (env : Env) (req : Webhook.WebhookReq)
    (w : World) (s : Session) (call : Call) :
  w_sessions w !! Webhook.wr_sessionId req = Some s ->
  s_currentCall s = Some call ->
  Webhook.wr_CallStatus req = "completed"%string ->
  let d := Webhook.duration req in
  let np := call_negotiatedPrice call in
  exists s',
    w_sessions (snd (Webhook.handle_webhook env req w)) !! Webhook.wr_sessionId req
      = Some s' /\
    (d < 10 ->
       call_status_of s' = Some HungUp /\ s_journeyStatus s' = SelectingVendor /\
       s_messages s' = s_messages s ++ [assistant_msg env
         "The vendor hung up the call. Would you like to try another vendor?"]) /\
    (10 <= d -> truthy_num np = false -> d < 60 ->
       call_status_of s' = Some HungUp /\ s_journeyStatus s' = SelectingVendor /\
       s_messages s' = s_messages s ++ [assistant_msg env
         "The call ended before negotiation could complete. Would you like to try another vendor?"]) /\
    (10 <= d -> truthy_num np = true ->
       call_status_of s' = Some CallCompleted /\
       s_journeyStatus s' = ProcessingPayment /\
       s_messages s' = s_messages s ++ [assistant_msg env
         ("Great news! I've negotiated a price of ₹"
          ++ Str.toLocaleString (default 0 np)
          ++ " for your Banarasi saree. Ready to proceed with payment?")%string]).
Proof.
  intros Hs Hc Hst d np.
  rewrite (webhook_effect env req w s call Hs Hc). simpl.
  rewrite lookup_insert_eq. eexists. split; [reflexivity|].
  unfold call_status_of.
  rewrite apply_mapping_call, apply_mapping_messages, apply_mapping_journey.
  fold d np. rewrite Hst.
  unfold Webhook.map_status; cbn -[Z.ltb truthy_num Str.toLocaleString].
  split; [|split].
  - intros H1. replace (d <? 10) with true by (symmetry; apply Z.ltb_lt; lia).
    auto.
  - intros H1 H2 H3. replace (d <? 10) with false by (symmetry; apply Z.ltb_ge; lia).
    rewrite H2. replace (d <? 60) with true by (symmetry; apply Z.ltb_lt; lia).
    auto.
  - intros H1 H2. replace (d <? 10) with false by (symmetry; apply Z.ltb_ge; lia).
    rewrite H2. auto.
Qed.

Lemma completed_status_classification_witness :
  let req := {| Webhook.wr_sessionId := "s1"; Webhook.wr_callId := "c1";
                Webhook.wr_CallStatus := "completed";
                Webhook.wr_CallDuration := Some 5 |} in
  exists s',
    w_sessions (snd (Webhook.handle_webhook demo_env req
                       (demo_world SFinalAgreement None))) !! "s1"%string
      = Some s' /\
    (5 < 10 ->
       call_status_of s' = Some HungUp /\ s_journeyStatus s' = SelectingVendor /\
       s_messages s' = [] ++ [assistant_msg demo_env
         "The vendor hung up the call. Would you like to try another vendor?"]) /\
    (10 <= 5 -> truthy_num None = false -> 5 < 60 ->
       call_status_of s' = Some HungUp /\ s_journeyStatus s' = SelectingVendor /\
       s_messages s' = [] ++ [assistant_msg demo_env
         "The call ended before negotiation could complete. Would you like to try another vendor?"]) /\
    (10 <= 5 -> truthy_num None = true ->
       call_status_of s' = Some CallCompleted /\
       s_journeyStatus s' = ProcessingPayment /\
       s_messages s' = [] ++ [assistant_msg demo_env
         ("Great news! I've negotiated a price of ₹"
          ++ Str.toLocaleString (default 0 None)
          ++ " for your Banarasi saree. Ready to proceed with payment?")%string]).
Proof.
  exact (completed_status_classification demo_env
           {| Webhook.wr_sessionId := "s1"; Webhook.wr_callId := "c1";
              Webhook.wr_CallStatus := "completed";
              Webhook.wr_CallDuration := Some 5 |}
           (demo_world SFinalAgreement None) (demo_session SFinalAgreement None)
           (demo_call SFinalAgreement None) eq_refl eq_refl eq_refl).
Defined.

(** (C6, counterexample) Delivering the ["completed"] event of a call
    with a negotiated price of 9000 twice leaves two copies of the
    "Great news!" message, where one delivery leaves one: the handler is
    not idempotent. *)
Lemma webhook_duplicate_counterexample :
  ~ (forall env req w,
       snd (Webhook.handle_webhook env req (snd (Webhook.handle_webhook env req w)))
       = snd (Webhook.handle_webhook env req w)).
Proof.
  intros H.
  specialize (H demo_env completed_90 (demo_world SFinalAgreement (Some 9000))).
  apply (f_equal (fun w => option_map (fun s => length (s_messages s))
                             (w_sessions w !! "s1"%string))) in H.
  vm_compute in H. discriminate H.
Qed.

(** (C6, amended) Delivering the same status event twice (same clock) for
    an existing session with a current call leaves the call (status,
    duration, completion time, negotiated price) and the journey status as
    one delivery leaves them, but appends the event's assistant message
    again: the second delivery adds the same messages as the first, so only
    events without a message (ringing, in-progress, answered, initiated,
    queued, unknown statuses) are idempotent. *)
Theorem webhook_duplicate_delivery (env : Env) (req : Webhook.WebhookReq)
    (w : World) (s : Session) (call : Call) :
  w_sessions w !! Webhook.wr_sessionId req = Some s ->
  s_currentCall s = Some call ->
  let m := Webhook.map_status (Webhook.wr_CallStatus req) (Webhook.duration req)
             (call_negotiatedPrice call) in
  let w1 := snd (Webhook.handle_webhook env req w) in
  let w2 := snd (Webhook.handle_webhook env req w1) in
  exists s1 s2,
    w_sessions w1 !! Webhook.wr_sessionId req = Some s1 /\
    w_sessions w2 !! Webhook.wr_sessionId req = Some s2 /\
    s_messages s1 = s_messages s ++ mapping_messages env m /\
    s_messages s2 = s_messages s1 ++ mapping_messages env m /\
    s_currentCall s2 = s_currentCall s1 /\
    s_journeyStatus s2 = s_journeyStatus s1 /\
    (Webhook.userMessage m = None -> s2 = s1).
Proof.
  intros Hs Hc m w1 w2.
  set (s1 := apply_mapping env m (Webhook.duration req) s call).
  set (call1 := call_set_status (Webhook.mappedStatus m) (Some (Webhook.duration req))
                  (if Webhook.is_final_status (Webhook.mappedStatus m)
                   then Some (env_now env) else None) call).
  assert (L1 : w_sessions w1 !! Webhook.wr_sessionId req = Some s1).
  { unfold w1. rewrite (webhook_effect env req w s call Hs Hc). simpl.
    apply lookup_insert_eq. }
  assert (C1 : s_currentCall s1 = Some call1) by apply apply_mapping_call.
  assert (L2 : w_sessions w2 !! Webhook.wr_sessionId req
               = Some (apply_mapping env m (Webhook.duration req) s1 call1)).
  { unfold w2. rewrite (webhook_effect env req w1 s1 call1 L1 C1). simpl.
    rewrite lookup_insert_eq. reflexivity. }
  exists s1, (apply_mapping env m (Webhook.duration req) s1 call1).
  split; [exact L1|]. split; [exact L2|].
  split; [apply apply_mapping_messages|].
  split; [apply apply_mapping_messages|].
  split; [rewrite apply_mapping_call, C1; reflexivity|].
  split.
  - unfold s1. rewrite !apply_mapping_journey.
    destruct (Webhook.shouldResetJourney m), (Webhook.toPayment m); reflexivity.
  - intros Hm. unfold s1, call1, apply_mapping. rewrite Hm.
    destruct (Webhook.toPayment m), (Webhook.shouldResetJourney m); reflexivity.
Qed.

Lemma webhook_duplicate_delivery_witness :
  let m := Webhook.map_status "completed" 90 (Some 9000) in
  let w1 := snd (Webhook.handle_webhook demo_env completed_90
                   (demo_world SFinalAgreement (Some 9000))) in
  let w2 := snd (Webhook.handle_webhook demo_env completed_90 w1) in
  exists s1 s2,
    w_sessions w1 !! "s1"%string = Some s1 /\
    w_sessions w2 !! "s1"%string = Some s2 /\
    s_messages s1 = [] ++ mapping_messages demo_env m /\
    s_messages s2 = s_messages s1 ++ mapping_messages demo_env m /\
    s_currentCall s2 = s_currentCall s1 /\
    s_journeyStatus s2 = s_journeyStatus s1 /\
    (Webhook.userMessage m = None -> s2 = s1).
Proof.
  exact (webhook_duplicate_delivery demo_env completed_90
           (demo_world SFinalAgreement (Some 9000))
           (demo_session SFinalAgreement (Some 9000))
           (demo_call SFinalAgreement (Some 9000)) eq_refl eq_refl).
Defined.

(** (C10) The status webhook answers 200 to every request, on every
    store; when the session or its current call is missing it also leaves
    the store unchanged. *)
Theorem webhook_always_200 (env : Env) (req : Webhook.WebhookReq) (w : World) :
  fst (Webhook.handle_webhook env req w) = Ok 200 /\
  ((forall s, w_sessions w !! Webhook.wr_sessionId req = Some s ->
              s_currentCall s = None) ->
   snd (Webhook.handle_webhook env req w) = w).
Proof.
  destruct (w_sessions w !! Webhook.wr_sessionId req) as [s|] eqn:Hs.
  - destruct (s_currentCall s) as [call|] eqn:Hc.
    + rewrite (webhook_effect env req w s call Hs Hc). split; [reflexivity|].
      intros H. specialize (H s eq_refl). congruence.
    + unfold Webhook.handle_webhook, try_catch, bind, ret, Storage.getSession.
      rewrite Hs, Hc. split; reflexivity.
  - unfold Webhook.handle_webhook, try_catch, bind, ret, Storage.getSession.
    rewrite Hs. split; reflexivity.
Qed.

(** ** The renderer at the attempt threshold *)

Module StrFacts.

Lemma prefix_app_l (p a b : string) :
  String.prefix p a = true -> String.prefix p (a ++ b) = true.
Proof.
  revert a. induction p as [|c p IH]; intros a H; [destruct (a ++ b)%string; reflexivity|].
  destruct a as [|c' a]; [discriminate H|]. simpl in *.
  destruct (Ascii.ascii_dec c c'); [apply IH; exact H|discriminate H].
Qed.

Lemma includes_app_l (a b p : string) :
  Str.includes a p = true -> Str.includes (a ++ b) p = true.
Proof.
  induction a as [|c a IH]; intros H.
  - destruct p; [simpl; destruct b; reflexivity|discriminate H].
  - change (Str.includes (String c a) p)
      with (String.prefix p (String c a) || Str.includes a p) in H.
    change (Str.includes (String c a ++ b) p)
      with (String.prefix p (String c a ++ b) || Str.includes (a ++ b) p).
    apply orb_true_iff in H as [H|H].
    + rewrite (prefix_app_l _ _ _ H). reflexivity.
    + rewrite (IH H). apply orb_true_r.
Qed.

Lemma includes_app_r (a b p : string) :
  Str.includes b p = true -> Str.includes (a ++ b) p = true.
Proof.
  induction a as [|c a IH]; intros H; [exact H|].
  simpl. rewrite (IH H). apply orb_true_r.
Qed.

Lemma includes_lines (ls : list string) (l p : string) :
  In l ls -> Str.includes l p = true -> Str.includes (Twilio.lines ls) p = true.
Proof.
  induction ls as [|l0 ls IH]; intros Hin Hl; [contradiction|].
  destruct ls as [|l1 ls].
  - destruct Hin as [<-|[]]. exact Hl.
  - change (Twilio.lines (l0 :: l1 :: ls))
      with (l0 ++ String (ascii_of_nat 10) EmptyString ++ Twilio.lines (l1 :: ls))%string.
    destruct Hin as [<-|Hin].
    + apply includes_app_l. exact Hl.
    + apply includes_app_r. apply (includes_app_r (String (ascii_of_nat 10) EmptyString)).
      exact (IH Hin Hl).
Qed.

Lemma string_app_assoc (a b c : string) : ((a ++ b) ++ c = a ++ (b ++ c))%string.
Proof. induction a as [|x a IH]; [reflexivity|]. change (String x ((a ++ b) ++ c) = String x (a ++ (b ++ c)))%string. rewrite IH; reflexivity. Qed.

Lemma lines_app (l1 l2 : list string) :
  l1 <> [] -> l2 <> [] ->
  Twilio.lines (l1 ++ l2)
  = (Twilio.lines l1 ++ String (ascii_of_nat 10) EmptyString ++ Twilio.lines l2)%string.
Proof.
  intros H1 H2. induction l1 as [|a l1 IH]; [contradiction|].
  destruct l1 as [|b l1].
  - simpl. destruct l2; [contradiction|]. reflexivity.
  - change ((a :: b :: l1) ++ l2) with (a :: ((b :: l1) ++ l2)).
    change (Twilio.lines (a :: (b :: l1) ++ l2))
      with (a ++ String (ascii_of_nat 10) EmptyString ++ Twilio.lines ((b :: l1) ++ l2))%string.
    rewrite IH by discriminate.
    change (Twilio.lines (a :: b :: l1))
      with (a ++ String (ascii_of_nat 10) EmptyString ++ Twilio.lines (b :: l1))%string.
    rewrite !string_app_assoc. reflexivity.
Qed.

End StrFacts.

Import StrFacts.

(** (C7, counterexample) At stage [greeting] and attempt 3, the rendered
    document still contains a [<Gather] directive. *)
Lemma render_max_attempts_counterexample :
  ~ (forall callId sessionId stage baseUrl cd attempt,
       render_terminal stage = false -> Twilio.maxAttempts <= attempt ->
       Twilio.has_gather
         (Twilio.generateConversationalTwiML callId sessionId stage baseUrl cd attempt)
       = false).
Proof.
  intros H.
  specialize (H "c1" "s1" "greeting" "https://example.test" None 3 eq_refl
                ltac:(unfold Twilio.maxAttempts; lia)).
  vm_compute in H. discriminate H.
Qed.

(** The two shapes of the document of a non-terminal stage. *)
Lemma render_nonterminal callId sessionId stage baseUrl cd attempt :
  render_terminal stage = false ->
  Twilio.generateConversationalTwiML callId sessionId stage baseUrl cd attempt
  = Twilio.lines (gather_head callId sessionId stage baseUrl cd attempt ++
                  if attempt >=? Twilio.maxAttempts then apology_tail
                  else retry_tail callId sessionId stage baseUrl cd attempt).
Proof.
  intros Ht. unfold Twilio.generateConversationalTwiML, gather_head, retry_tail.
  destruct (Twilio.script_and_message stage cd) as [sc msg]. cbn [fst snd].
  unfold render_terminal in Ht. rewrite Ht. cbv zeta.
  destruct (attempt >=? Twilio.maxAttempts); reflexivity.
Qed.

Lemma gather_head_gathers callId sessionId stage baseUrl cd attempt :
  Twilio.has_gather (Twilio.lines (gather_head callId sessionId stage baseUrl cd attempt))
  = true.
Proof.
  unfold Twilio.has_gather.
  apply (includes_lines _
    (Str.lit "  <Gather input=^speech dtmf^ timeout=^5^ speechTimeout=^3^ language=^hi-IN^ ")).
  - simpl. right. right. left. reflexivity.
  - vm_compute. reflexivity.
Qed.

(** (C7, amended) For a non-terminal stage and an attempt at or above the
    threshold 3 (and below 10^21, where [String(attempt)] is its decimal
    digits), the document is the header and the gather directive with the
    stage prompt, as at earlier attempts, followed by the apology prompt
    and the hangup directive: the lines that follow the gather at an
    attempt below the threshold (and not below -2^53), the fallback
    prompt and the redirect to the next attempt, are replaced.  The gather part gathers input, the
    closing part hangs up and redirects nowhere. *)
Theorem render_at_max_attempts callId sessionId stage baseUrl cd attempt :
  render_terminal stage = false -> Twilio.maxAttempts <= attempt -> attempt < 10 ^ 21 ->
  Twilio.generateConversationalTwiML callId sessionId stage baseUrl cd attempt
  = Twilio.lines (gather_head callId sessionId stage baseUrl cd attempt ++ apology_tail) /\
  (forall attempt', - 2 ^ 53 <= attempt' < Twilio.maxAttempts ->
   Twilio.generateConversationalTwiML callId sessionId stage baseUrl cd attempt'
   = Twilio.lines (gather_head callId sessionId stage baseUrl cd attempt' ++
                   retry_tail callId sessionId stage baseUrl cd attempt')) /\
  Twilio.has_gather (Twilio.lines (gather_head callId sessionId stage baseUrl cd attempt))
  = true /\
  Twilio.has_hangup (Twilio.lines apology_tail) = true /\
  Twilio.has_gather (Twilio.lines apology_tail) = false /\
  Str.includes (Twilio.lines apology_tail) "<Redirect" = false.
Proof.
  intros Ht Ha _.
  split; [|split; [|split; [apply gather_head_gathers | split; [|split]]]].
  - rewrite (render_nonterminal _ _ _ _ _ _ Ht).
    assert (Hge : (attempt >=? Twilio.maxAttempts) = true)
      by (rewrite Z.geb_leb; apply Z.leb_le; exact Ha).
    rewrite Hge. reflexivity.
  - intros a' [_ Ha']. rewrite (render_nonterminal _ _ _ _ _ _ Ht).
    assert (Hlt : (a' >=? Twilio.maxAttempts) = false)
      by (rewrite Z.geb_leb; apply Z.leb_gt; exact Ha').
    rewrite Hlt. reflexivity.
  - vm_compute. reflexivity.
  - vm_compute. reflexivity.
  - vm_compute. reflexivity.
Qed.

Lemma render_at_max_attempts_witness :
  Twilio.generateConversationalTwiML "c1" "s1" "counterOffer" "https://example.test" None 3
  = Twilio.lines (gather_head "c1" "s1" "counterOffer" "https://example.test" None 3
                  ++ apology_tail) /\
  (forall attempt', - 2 ^ 53 <= attempt' < Twilio.maxAttempts ->
   Twilio.generateConversationalTwiML "c1" "s1" "counterOffer" "https://example.test" None attempt'
   = Twilio.lines (gather_head "c1" "s1" "counterOffer" "https://example.test" None attempt' ++
                   retry_tail "c1" "s1" "counterOffer" "https://example.test" None attempt')) /\
  Twilio.has_gather (Twilio.lines (gather_head "c1" "s1" "counterOffer" "https://example.test" None 3))
  = true /\
  Twilio.has_hangup (Twilio.lines apology_tail) = true /\
  Twilio.has_gather (Twilio.lines apology_tail) = false /\
  Str.includes (Twilio.lines apology_tail) "<Redirect" = false.
Proof.
  apply (render_at_max_attempts "c1" "s1" "counterOffer" "https://example.test" None 3);
    [reflexivity | unfold Twilio.maxAttempts; lia | lia].
Defined.

(** ** Processing a payment *)

Module PaymentFacts.
Import Payments.

(** One round of evaluation of the handler, leaving map lookups alone. *)
Ltac step_pay :=
  cbv beta iota zeta delta [handle_process settle on_error parse try_catch bind ret throw
    Storage.getSession Storage.setTransaction Storage.updateTransaction
    Storage.addMessage Storage.updateSession put_session log_settlement
    or_throw pr_sessionId pr_amount pr_vendorPhone svc_offRampUSDC
    svc_sendUSDC svc_createPayout negb is_approved w_sessions w_log
    s_selectedVendor s_transaction set_transaction set_messages
    set_journeyStatus fst snd].

Ltac run_pay Hs :=
  repeat (first [ progress step_pay | rewrite lookup_insert_eq | rewrite Hs ]).

(** Without a transaction, on a session with a selected vendor, a
    well-formed request reaches the conversion step. *)
Lemma synthesize_reaches_conversion env svc sid a ph w s v :
  w_sessions w !! sid = Some s ->
  s_transaction s = None ->
  s_selectedVendor s = Some v ->
  exists rest,
    w_log (snd (handle_process env svc
                  {| pr_sessionId := Some sid; pr_amount := Some a;
                     pr_vendorPhone := Some ph |} w))
    = w_log w ++ OffRampUSDC sid :: rest.
Proof.
  intros Hs Ht Hv.
  destruct w as [sess log]; simpl in Hs.
  destruct s; simpl in Ht, Hv; subst.
  destruct svc as [[conv|] [hash|] [po|]]; run_pay Hs; eexists; rewrite <- ?app_assoc; reflexivity.
Qed.

(** Without a transaction, on a session with a selected vendor, a
    well-formed request stores a new transaction with status
    [processing] and then runs the settlement steps under the route's
    error handler. *)
Lemma synthesize_then_settle env svc sid a ph w s v :
  w_sessions w !! sid = Some s ->
  s_transaction s = None ->
  s_selectedVendor s = Some v ->
  handle_process env svc
    {| pr_sessionId := Some sid; pr_amount := Some a; pr_vendorPhone := Some ph |} w
  = try_catch (settle env svc sid)
      (on_error {| pr_sessionId := Some sid; pr_amount := Some a; pr_vendorPhone := Some ph |})
      {| w_sessions :=
           <[sid := set_transaction
               (Some {| tx_id := env_uuid env; tx_vendorId := v_id v; tx_amount := a;
                  tx_currency := "INR"; tx_status := TxProcessing;
                  tx_coinbaseConversionId := None; tx_locusTransactionHash := None;
                  tx_stripePayoutId := None; tx_createdAt := env_now env;
                  tx_completedAt := None |}) s]> (w_sessions w);
         w_log := w_log w |}.
Proof.
  intros Hs Ht Hv.
  assert (Hc : forall A (m m' : M A) h w1 w2,
             m w1 = m' w2 -> try_catch m h w1 = try_catch m' h w2)
    by (intros A m m' h w1 w2 E; unfold try_catch; rewrite E; reflexivity).
  unfold handle_process. apply Hc.
  cbv beta iota zeta delta [bind parse ret Storage.getSession
    pr_sessionId pr_amount pr_vendorPhone].
  rewrite Hs, Hv, Ht.
  cbv beta iota zeta delta [bind Storage.setTransaction Storage.getSession
    put_session ret negb].
  rewrite Hs. reflexivity.
Qed.

End PaymentFacts.

Import PaymentFacts.

(** (C8, counterexample) Two requests on session "s1" holding a pending
    transaction: without a selected vendor the well-formed request is
    answered 404, not 400; a request without an amount is answered 500 and
    the transaction's status changes to [failed]. *)
Lemma process_rejection_counterexample :
  ~ (forall env svc req w sid s t,
       Payments.pr_sessionId req = Some sid ->
       w_sessions w !! sid = Some s ->
       s_transaction s = Some t ->
       Payments.is_approved (tx_status t) = false ->
       fst (Payments.handle_process env svc req w) = Ok 400) /\
  ~ (forall env svc req w sid s t,
       Payments.pr_sessionId req = Some sid ->
       w_sessions w !! sid = Some s ->
       s_transaction s = Some t ->
       Payments.is_approved (tx_status t) = false ->
       session_tx_status (snd (Payments.handle_process env svc req w)) sid
       = Some (tx_status t)).
Proof.
  split; intros H.
  - specialize (H demo_env svc_ok pay_req (pay_world false (Some (demo_tx TxPending)))
                  "s1"%string (pay_session false (Some (demo_tx TxPending)))
                  (demo_tx TxPending) eq_refl eq_refl eq_refl eq_refl).
    vm_compute in H. discriminate H.
  - specialize (H demo_env svc_ok pay_req_no_amount
                  (pay_world true (Some (demo_tx TxPending)))
                  "s1"%string (pay_session true (Some (demo_tx TxPending)))
                  (demo_tx TxPending) eq_refl eq_refl eq_refl eq_refl).
    vm_compute in H. discriminate H.
Qed.

(** (C8, amended) For a request naming session [sid], stored as [s]:
    - when [s] holds a transaction whose status is not [approved]: a
      well-formed request is answered 400 when a vendor is selected and
      404 when none is, in both cases with the state and the settlement
      log unchanged; a malformed request (no amount or no vendor phone) is
      answered 500 with no settlement step, and the handler's error path
      sets the transaction's status to [failed];
    - when [s] holds no transaction and a vendor is selected, a
      well-formed request synthesizes one (new id, the selected vendor,
      the requested amount in INR, status [processing], created now),
      stores it in the session and then runs the settlement steps under
      the route's error handler, starting with the conversion step (the
      first settlement step is logged). *)
Theorem process_requires_approval env svc req w sid s :
  Payments.pr_sessionId req = Some sid ->
  w_sessions w !! sid = Some s ->
  (forall t, s_transaction s = Some t ->
   Payments.is_approved (tx_status t) = false ->
  ((exists a ph, Payments.pr_amount req = Some a /\ Payments.pr_vendorPhone req = Some ph) ->
     s_selectedVendor s <> None -> Payments.handle_process env svc req w = (Ok 400, w)) /\
  ((exists a ph, Payments.pr_amount req = Some a /\ Payments.pr_vendorPhone req = Some ph) ->
     s_selectedVendor s = None -> Payments.handle_process env svc req w = (Ok 404, w)) /\
  ((Payments.pr_amount req = None \/ Payments.pr_vendorPhone req = None) ->
     fst (Payments.handle_process env svc req w) = Ok 500 /\
     w_log (snd (Payments.handle_process env svc req w)) = w_log w /\
     session_tx_status (snd (Payments.handle_process env svc req w)) sid = Some TxFailed))
  /\
  (s_transaction s = None -> forall a ph v,
   Payments.pr_amount req = Some a -> Payments.pr_vendorPhone req = Some ph ->
   s_selectedVendor s = Some v ->
   Payments.handle_process env svc req w
   = try_catch (Payments.settle env svc sid) (Payments.on_error req)
       {| w_sessions :=
            <[sid := set_transaction
                (Some {| tx_id := env_uuid env; tx_vendorId := v_id v; tx_amount := a;
                   tx_currency := "INR"; tx_status := TxProcessing;
                   tx_coinbaseConversionId := None; tx_locusTransactionHash := None;
                   tx_stripePayoutId := None; tx_createdAt := env_now env;
                   tx_completedAt := None |}) s]> (w_sessions w);
          w_log := w_log w |} /\
   exists rest,
     w_log (snd (Payments.handle_process env svc req w))
     = w_log w ++ OffRampUSDC sid :: rest).
Proof.
  intros Hid Hs.
  destruct req as [rid ra rph]; simpl in Hid; subst rid.
  split.
  2:{ intros Ht a ph v Ha Hph Hv. simpl in Ha, Hph; subst.
      split.
      - exact (synthesize_then_settle env svc sid a ph w s v Hs Ht Hv).
      - exact (synthesize_reaches_conversion env svc sid a ph w s v Hs Ht Hv). }
  intros t Ht Hna.
  split; [|split].
  - intros (a & ph & Ha & Hph) Hv. simpl in Ha, Hph; subst.
    destruct (s_selectedVendor s) as [v|] eqn:Hsv; [|congruence].
    unfold Payments.handle_process, Payments.parse, try_catch, bind, ret,
      Storage.getSession.
    simpl. rewrite Hs, Hsv, Ht, Hna. simpl. destruct w; reflexivity.
  - intros (a & ph & Ha & Hph) Hv. simpl in Ha, Hph; subst.
    unfold Payments.handle_process, Payments.parse, try_catch, bind, ret,
      Storage.getSession.
    simpl. rewrite Hs, Hv. destruct w; reflexivity.
  - intros Hbad. simpl in Hbad.
    assert (Hp : forall A (k : string * Z * string -> M A) w',
               bind (Payments.parse {| Payments.pr_sessionId := Some sid;
                                       Payments.pr_amount := ra;
                                       Payments.pr_vendorPhone := rph |}) k w'
               = (Throw "validation error", w'))
      by (intros; unfold Payments.parse; simpl;
          destruct Hbad as [-> | ->]; [|destruct ra]; reflexivity).
    unfold Payments.handle_process, try_catch. rewrite Hp.
    unfold Payments.on_error, try_catch, bind, ret, Storage.getSession, Storage.updateTransaction, put_session.
    cbv beta iota delta [Payments.pr_sessionId]. rewrite Hs, Ht. unfold bind, Storage.getSession. cbv beta iota. rewrite Hs, Ht. cbv beta iota.
    unfold session_tx_status. simpl. rewrite lookup_insert_eq. simpl.
    auto.
Qed.

Lemma process_requires_approval_witness :
  Payments.handle_process demo_env svc_ok pay_req (pay_world true (Some (demo_tx TxPending)))
  = (Ok 400, pay_world true (Some (demo_tx TxPending))) /\
  (Payments.handle_process demo_env svc_ok pay_req (pay_world true None)
   = try_catch (Payments.settle demo_env svc_ok "s1") (Payments.on_error pay_req)
       {| w_sessions :=
            <[ "s1"%string := set_transaction
                 (Some {| tx_id := env_uuid demo_env; tx_vendorId := "v1"; tx_amount := 9000;
                          tx_currency := "INR"; tx_status := TxProcessing;
                          tx_coinbaseConversionId := None; tx_locusTransactionHash := None;
                          tx_stripePayoutId := None; tx_createdAt := env_now demo_env;
                          tx_completedAt := None |}) (pay_session true None)]>
              (w_sessions (pay_world true None));
          w_log := w_log (pay_world true None) |} /\
   exists rest,
     w_log (snd (Payments.handle_process demo_env svc_ok pay_req (pay_world true None)))
     = w_log (pay_world true None) ++ OffRampUSDC "s1" :: rest).
Proof.
  split.
  - apply (proj1 (proj1 (process_requires_approval demo_env svc_ok pay_req
             (pay_world true (Some (demo_tx TxPending))) "s1"%string
             (pay_session true (Some (demo_tx TxPending))) eq_refl eq_refl)
             (demo_tx TxPending) eq_refl eq_refl)).
    + exists 9000, "+910000000000"%string. split; reflexivity.
    + discriminate.
  - exact (proj2 (process_requires_approval demo_env svc_ok pay_req
             (pay_world true None) "s1"%string (pay_session true None) eq_refl eq_refl)
             eq_refl 9000 "+910000000000"%string
             {| v_id := "v1"; v_name := "Vendor"; v_phone := "+910000000000" |}
             eq_refl eq_refl eq_refl).
Defined.

(** ** The [noSaree] turn *)

Import GatherStore.

(** (C9, counterexample) At [greeting], the answer "nahi" moves the call
    to [noSaree], and the session's message list is left as it was: no
    assistant message is appended. *)
Lemma noSaree_message_counterexample :
  ~ (forall env req w s call stage c',
       w_sessions w !! gr_sessionId req = Some s ->
       s_currentCall s = Some call ->
       stage_of_string (gr_stage req) = Some stage ->
       decide stage (speechResult req) (digits req)
         (normalize (call_conversationState call)) = Advance SNoSaree c' ->
       exists s' m,
         w_sessions (snd (handle_gather env req w)) !! gr_sessionId req = Some s'
         /\ s_messages s' = s_messages s ++ [m] /\ msg_role m = RAssistant).
Proof.
  intros H.
  destruct (H demo_env (demo_req "greeting" (Some "nahi"%string) None)
              (demo_world SGreeting None) (demo_session SGreeting None)
              (demo_call SGreeting None) SGreeting
              (with_stage SNoSaree (with_attempts 0 (normalize (Some (demo_state SGreeting None)))))
              eq_refl eq_refl eq_refl eq_refl)
    as (s' & m & Hs' & Hm & _).
  vm_compute in Hs'. injection Hs' as <-. vm_compute in Hm.
  apply (f_equal (@length Message)) in Hm. discriminate Hm.
Qed.

(** (C9, amended) A gather turn whose next stage is [noSaree] saves the
    conversation state (at stage [noSaree]) on the call and changes
    nothing else in the session: the message list, the journey status and
    the call's status stay as they were.  The reply is the closing
    document: the polite-decline prompt spoken to the vendor, then the
    hangup. *)
Theorem noSaree_turn env req w s call stage c' :
  w_sessions w !! gr_sessionId req = Some s ->
  s_currentCall s = Some call ->
  stage_of_string (gr_stage req) = Some stage ->
  decide stage (speechResult req) (digits req)
    (normalize (call_conversationState call)) = Advance SNoSaree c' ->
  exists s',
    w_sessions (snd (handle_gather env req w)) !! gr_sessionId req = Some s' /\
    s_messages s' = s_messages s /\
    s_journeyStatus s' = s_journeyStatus s /\
    call_status_of s' = Some (call_status call) /\
    option_map call_conversationState (s_currentCall s') = Some (Some c') /\
    cs_stage c' = SNoSaree /\
    fst (handle_gather env req w)
    = Ok (Twilio.lines
            [ Twilio.xml_header;
              "<Response>";
              ("  " ++ Twilio.say_open ++ Twilio.message Twilio.script_noSaree
               ++ "</Say>")%string;
              "  <Hangup/>";
              "</Response>" ]).
Proof.
  intros Hs Hc Hst Hd.
  assert (Hstage : cs_stage c' = SNoSaree).
  { unfold decide in Hd.
    destruct (negb (has_input (speechResult req) (digits req)) && _); [discriminate|].
    destruct (transition _ _ _ _) as [[] c0]; try discriminate;
      injection Hd as <-; reflexivity. }
  rewrite (handle_gather_advance env req w s call stage SNoSaree c' Hs Hc Hst Hd).
  unfold world_with_call. simpl. rewrite lookup_insert_eq.
  eexists. repeat split; try reflexivity. exact Hstage.
Qed.

Lemma noSaree_turn_witness :
  exists s',
    w_sessions (snd (handle_gather demo_env (demo_req "greeting" (Some "nahi"%string) None)
                       (demo_world SGreeting None))) !! "s1"%string = Some s' /\
    s_messages s' = [] /\
    s_journeyStatus s' = CallingVendor /\
    call_status_of s' = Some InProgress /\
    option_map call_conversationState (s_currentCall s')
      = Some (Some (with_stage SNoSaree
                      (with_attempts 0 (normalize (Some (demo_state SGreeting None)))))) /\
    cs_stage (with_stage SNoSaree
                (with_attempts 0 (normalize (Some (demo_state SGreeting None))))) = SNoSaree /\
    fst (handle_gather demo_env (demo_req "greeting" (Some "nahi"%string) None)
           (demo_world SGreeting None))
    = Ok (Twilio.lines
            [ Twilio.xml_header;
              "<Response>";
              ("  " ++ Twilio.say_open ++ Twilio.message Twilio.script_noSaree
               ++ "</Say>")%string;
              "  <Hangup/>";
              "</Response>" ]).
Proof.
  apply (noSaree_turn demo_env (demo_req "greeting" (Some "nahi"%string) None)
           (demo_world SGreeting None) (demo_session SGreeting None)
           (demo_call SGreeting None) SGreeting); vm_compute; reflexivity.
Defined.

(** ** The session store *)

Module StoreFacts.

Lemma put_session_frame id s w :
  frame_ok id w {| w_sessions := <[id := s]> (w_sessions w); w_log := w_log w |}.
Proof.
  split; [reflexivity|]. intros id' Hne. simpl.
  rewrite lookup_insert_ne by congruence. reflexivity.
Qed.

Lemma unchanged_frame id w : frame_ok id w w.
Proof. split; reflexivity. Qed.

End StoreFacts.

Import StoreFacts.

(** (X2) Every write of the session store on session [id], whether it
    succeeds or throws, leaves the settlement log and every other session
    unchanged. *)
Theorem store_writes_local (id : string) (w : World) :
  (forall upd, frame_ok id w (snd (Storage.updateSession id upd w))) /\
  (forall m, frame_ok id w (snd (Storage.addMessage id m w))) /\
  (forall t, frame_ok id w (snd (Storage.setTransaction id t w))) /\
  (forall v, frame_ok id w (snd (StoreOps.setSelectedVendor id v w))) /\
  (forall c, frame_ok id w (snd (StoreOps.setCurrentCall id c w))) /\
  (forall upd, frame_ok id w (snd (Storage.updateCall id upd w))) /\
  (forall upd, frame_ok id w (snd (Storage.updateTransaction id upd w))).
Proof.
  split; [|split; [|split; [|split; [|split; [|split]]]]]; intros;
    unfold Storage.updateSession, Storage.addMessage, Storage.setTransaction,
      StoreOps.setSelectedVendor, StoreOps.setCurrentCall, Storage.updateCall,
      Storage.updateTransaction, bind, Storage.getSession, throw, ret, put_session;
    destruct (w_sessions w !! id) as [s|]; simpl;
    try destruct (s_currentCall s); try destruct (s_transaction s); simpl;
    first [ apply put_session_frame | apply unchanged_frame ].
Qed.

(** ** The renderer below the threshold and at the terminal stages *)

(** (X4) For a non-terminal stage and an attempt below the threshold 3
    (and not below -2^53, so that [attempt + 1] is exact and printed as
    decimal digits), the document is the header, the gather directive
    whose action posts to the gather route with the attempt and which
    speaks the stage prompt, then the stage's fallback prompt and a
    redirect (GET) to the TwiML route of the same session, call and stage
    with the attempt number plus one.  It gathers input. *)
Theorem render_below_threshold callId sessionId stage baseUrl cd attempt :
  render_terminal stage = false -> attempt < Twilio.maxAttempts -> - 2 ^ 53 <= attempt ->
  Twilio.generateConversationalTwiML callId sessionId stage baseUrl cd attempt
  = Twilio.lines (gather_head callId sessionId stage baseUrl cd attempt ++
                  retry_tail callId sessionId stage baseUrl cd attempt) /\
  Twilio.has_gather (Twilio.generateConversationalTwiML callId sessionId stage baseUrl cd attempt)
  = true.
Proof.
  intros Ht Ha _.
  assert (E : Twilio.generateConversationalTwiML callId sessionId stage baseUrl cd attempt
              = Twilio.lines (gather_head callId sessionId stage baseUrl cd attempt ++
                              retry_tail callId sessionId stage baseUrl cd attempt)).
  { rewrite (render_nonterminal _ _ _ _ _ _ Ht).
    assert (Hlt : (attempt >=? Twilio.maxAttempts) = false)
      by (rewrite Z.geb_leb; apply Z.leb_gt; exact Ha).
    rewrite Hlt. reflexivity. }
  split; [exact E|]. rewrite E. unfold Twilio.has_gather.
  apply (includes_lines _
    (Str.lit "  <Gather input=^speech dtmf^ timeout=^5^ speechTimeout=^3^ language=^hi-IN^ ")).
  - simpl. right. right. left. reflexivity.
  - vm_compute. reflexivity.
Qed.

Lemma render_below_threshold_witness :
  Twilio.generateConversationalTwiML "c1" "s1" "askRequirements" "https://example.test" None 1
  = Twilio.lines (gather_head "c1" "s1" "askRequirements" "https://example.test" None 1 ++
                  retry_tail "c1" "s1" "askRequirements" "https://example.test" None 1) /\
  Twilio.has_gather
    (Twilio.generateConversationalTwiML "c1" "s1" "askRequirements" "https://example.test" None 1)
  = true.
Proof.
  apply (render_below_threshold "c1" "s1" "askRequirements" "https://example.test" None 1);
    [reflexivity | unfold Twilio.maxAttempts; lia | lia].
Defined.

(** (X5) For a terminal stage (finalAgreement, noSaree, ended) the
    document does not depend on the call id, the session id, the base URL
    or the attempt number, and it contains the hangup directive; for
    noSaree and ended it contains no gather directive. *)
Theorem render_terminal_stage callId sessionId stage baseUrl cd attempt
    callId' sessionId' baseUrl' attempt' :
  render_terminal stage = true ->
  Twilio.generateConversationalTwiML callId sessionId stage baseUrl cd attempt
  = Twilio.generateConversationalTwiML callId' sessionId' stage baseUrl' cd attempt' /\
  Twilio.has_hangup
    (Twilio.generateConversationalTwiML callId sessionId stage baseUrl cd attempt) = true /\
  (stage = "noSaree"%string \/ stage = "ended"%string ->
   Twilio.has_gather
     (Twilio.generateConversationalTwiML callId sessionId stage baseUrl cd attempt) = false).
Proof.
  intros Ht. split; [|split].
  - unfold Twilio.generateConversationalTwiML.
    destruct (Twilio.script_and_message stage cd) as [sc msg].
    unfold render_terminal in Ht. rewrite Ht. reflexivity.
  - unfold Twilio.generateConversationalTwiML.
    destruct (Twilio.script_and_message stage cd) as [sc msg].
    unfold render_terminal in Ht. rewrite Ht.
    unfold Twilio.has_hangup. apply (includes_lines _ "  <Hangup/>").
    + simpl. right. right. right. left. reflexivity.
    + reflexivity.
  - intros [-> | ->]; vm_compute; reflexivity.
Qed.

Lemma render_terminal_stage_witness :
  render_terminal "finalAgreement" = true /\
  Twilio.generateConversationalTwiML "c1" "s1" "finalAgreement" "https://example.test"
    (Some (demo_state SFinalAgreement (Some 9500))) 1
  = Twilio.generateConversationalTwiML "c2" "s2" "finalAgreement" "https://other.test"
      (Some (demo_state SFinalAgreement (Some 9500))) 3 /\
  Twilio.has_hangup
    (Twilio.generateConversationalTwiML "c1" "s1" "finalAgreement" "https://example.test"
       (Some (demo_state SFinalAgreement (Some 9500))) 1) = true /\
  ("finalAgreement"%string = "noSaree"%string \/ "finalAgreement"%string = "ended"%string ->
   Twilio.has_gather
     (Twilio.generateConversationalTwiML "c1" "s1" "finalAgreement" "https://example.test"
        (Some (demo_state SFinalAgreement (Some 9500))) 1) = false).
Proof.
  split; [reflexivity|].
  apply (render_terminal_stage "c1" "s1" "finalAgreement" "https://example.test"
           (Some (demo_state SFinalAgreement (Some 9500))) 1 "c2" "s2" "https://other.test" 3).
  reflexivity.
Defined.

(** ** The attempt counter in the URLs *)

Module ParseFacts.
Import ParseInt.

Fixpoint all_digits (s : string) : bool :=
  match s with
  | EmptyString => true
  | String c s' => Str.is_digit c && all_digits s'
  end.

Lemma digit_char (n : Z) :
  0 <= n < 10 ->
  digit_in 10 (ascii_of_nat (Z.to_nat n + 48)) = Some n /\
  Str.is_digit (ascii_of_nat (Z.to_nat n + 48)) = true.
Proof.
  intros Hn.
  destruct (Z_of_nat_complete n (proj1 Hn)) as [k ->].
  rewrite Nat2Z.id.
  assert (Hk : (k < 10)%nat) by lia.
  do 10 (destruct k as [|k]; [split; reflexivity|]).
  lia.
Qed.

Lemma pos_digits_spec (fuel : nat) (n : Z) (acc : string) :
  0 <= n -> n <= Z.of_nat fuel -> (1 <= fuel)%nat ->
  digits_value 10 (Str.pos_digits fuel n acc) None = digits_value 10 acc (Some n) /\
  (all_digits acc = true -> all_digits (Str.pos_digits fuel n acc) = true) /\
  exists c r, Str.pos_digits fuel n acc = String c r /\ Str.is_digit c = true.
Proof.
  revert n acc. induction fuel as [|f IH]; intros n acc H0 H1 H2; [lia|].
  pose proof (Z.mod_pos_bound n 10 ltac:(lia)) as Hm.
  destruct (digit_char (n mod 10) Hm) as [Hd Hdig].
  simpl Str.pos_digits.
  destruct (n <? 10) eqn:Hlt.
  - apply Z.ltb_lt in Hlt. rewrite Z.mod_small in Hd, Hdig by lia.
    rewrite Z.mod_small by lia.
    split; [|split].
    + simpl. rewrite Hd. reflexivity.
    + intros Ha. simpl. rewrite Hdig, Ha. reflexivity.
    + eexists _, _. split; [reflexivity | exact Hdig].
  - apply Z.ltb_ge in Hlt.
    assert (Hq : n / 10 < n) by (apply Z.div_lt; lia).
    assert (Hq0 : 0 <= n / 10) by (apply Z.div_pos; lia).
    destruct (IH (n / 10) (String (ascii_of_nat (Z.to_nat (n mod 10) + 48)) acc))
      as (IH1 & IH2 & IH3); [lia | lia | lia |].
    split; [|split].
    + rewrite IH1. simpl. rewrite Hd.
      rewrite (Z.div_mod n 10) at 3 by lia. reflexivity.
    + intros Ha. apply IH2. simpl. rewrite Hdig, Ha. reflexivity.
    + exact IH3.
Qed.

Lemma skip_ws_none (s : string) : ws_len s = 0%nat -> skip_ws s = s.
Proof.
  intros H. unfold skip_ws. destruct (String.length s); simpl; [reflexivity|].
  rewrite H. reflexivity.
Qed.

Lemma digit_not_special (c : ascii) :
  Str.is_digit c = true ->
  (forall r, ws_len (String c r) = 0%nat) /\
  Ascii.eqb c "-"%char = false /\ Ascii.eqb c "+"%char = false /\
  c <> "x"%char /\ c <> "X"%char.
Proof.
  intros H. unfold Str.is_digit in H. apply andb_true_iff in H as [H1 H2].
  apply Nat.leb_le in H1, H2.
  repeat split.
  - intros r. unfold ws_len. cbv zeta.
    assert (Hw : is_ws c = false).
    { unfold is_ws. apply orb_false_iff. split.
      + apply Nat.eqb_neq. lia.
      + apply andb_false_iff. right. apply Nat.leb_gt. lia. }
    assert (E : forall m, (58 <= m)%nat -> (nat_of_ascii c =? m)%nat = false)
      by (intros m Hm; apply Nat.eqb_neq; lia).
    rewrite Hw, !E by lia. reflexivity.
  - destruct (Ascii.eqb c "-"%char) eqn:E; [|reflexivity].
    apply Ascii.eqb_eq in E. subst c. vm_compute in H1. lia.
  - destruct (Ascii.eqb c "+"%char) eqn:E; [|reflexivity].
    apply Ascii.eqb_eq in E. subst c. vm_compute in H1. lia.
  - intros ->. vm_compute in H2. lia.
  - intros ->. vm_compute in H2. lia.
Qed.

Lemma non_digit_value (c : ascii) :
  Str.is_digit c = false -> digit_in 10 c = None.
Proof.
  unfold Str.is_digit, digit_in. intros H. cbv zeta.
  destruct (Nat.leb_spec 48 (nat_of_ascii c)), (Nat.leb_spec (nat_of_ascii c) 57);
    try discriminate H;
  destruct (Z.leb_spec 48 (Z.of_nat (nat_of_ascii c))),
           (Z.leb_spec (Z.of_nat (nat_of_ascii c)) 57); try lia; simpl;
  destruct (Z.leb_spec 97 (Z.of_nat (nat_of_ascii c))),
           (Z.leb_spec (Z.of_nat (nat_of_ascii c)) 122); simpl;
  try (destruct (Z.ltb_spec (Z.of_nat (nat_of_ascii c) - 87) 10); [lia|reflexivity]);
  destruct (Z.leb_spec 65 (Z.of_nat (nat_of_ascii c))),
           (Z.leb_spec (Z.of_nat (nat_of_ascii c)) 90); simpl;
  try (destruct (Z.ltb_spec (Z.of_nat (nat_of_ascii c) - 55) 10); [lia|reflexivity]);
  reflexivity.
Qed.

Lemma no_hex_prefix (s : string) :
  all_digits s = true ->
  String.prefix "0x" s || String.prefix "0X" s = false.
Proof.
  destruct s as [|c [|c' s']]; intros H; [reflexivity|..].
  - cbn [String.prefix]. destruct (ascii_dec "0" c); reflexivity.
  - cbn [all_digits] in H. apply andb_true_iff in H as [_ H].
    apply andb_true_iff in H as [H _].
    destruct (digit_not_special c' H) as (_ & _ & _ & Hx & HX).
    cbn [String.prefix]. destruct (ascii_dec "0" c); [|reflexivity].
    destruct (ascii_dec "x" c'); [congruence|].
    destruct (ascii_dec "X" c'); [congruence|]. reflexivity.
Qed.

Lemma parse_digits (fuel : nat) (n : Z) :
  0 <= n -> n <= Z.of_nat fuel -> (1 <= fuel)%nat ->
  (String.prefix "0x" (Str.pos_digits fuel n "") ||
   String.prefix "0X" (Str.pos_digits fuel n "")) = false /\
  digits_value 10 (Str.pos_digits fuel n "") None = Some n.
Proof.
  intros H0 H1 H2.
  destruct (pos_digits_spec fuel n "" H0 H1 H2) as (Hv & Ha & _).
  split; [apply no_hex_prefix, Ha; reflexivity | exact Hv].
Qed.

End ParseFacts.

Import ParseFacts.

(** (X6) The attempt number written into the retry URLs is read back
    unchanged by [parseInt(req.query.attempt) || 1]: for every integer
    [k] with |k| <= 2^53 (where the double is exact), [parseInt(String(k))]
    is [k], so the route's attempt is [k], except that 0 (falsy) becomes
    1.  A missing query, an empty one, or one whose first character after
    the leading white space is neither a digit nor a sign gives 1. *)
Theorem attempt_query_roundtrip (k : Z) :
  - 2 ^ 53 <= k <= 2 ^ 53 ->
  ParseInt.parseInt (Str.Z_toString k) = Some k /\
  ParseInt.attempt_of_query (Some (Str.Z_toString k)) = (if k =? 0 then 1 else k) /\
  ParseInt.attempt_of_query None = 1 /\
  (forall q, ParseInt.skip_ws q = EmptyString -> ParseInt.attempt_of_query (Some q) = 1) /\
  (forall q c r, ParseInt.skip_ws q = String c r ->
   Str.is_digit c = false -> c <> "-"%char -> c <> "+"%char ->
   ParseInt.attempt_of_query (Some q) = 1).
Proof.
  intros Hr.
  assert (Hp : ParseInt.parseInt (Str.Z_toString k) = Some k).
  { unfold Str.Z_toString. destruct (k <? 0) eqn:Hk.
    - apply Z.ltb_lt in Hk. unfold ParseInt.parseInt.
      rewrite skip_ws_none by reflexivity.
      cbn [Ascii.eqb Bool.eqb andb].
      destruct (parse_digits (Z.to_nat (- k)) (- k)) as [Hx Hv]; [lia..|].
      rewrite Hx. cbv iota beta. rewrite Hv. simpl. f_equal. lia.
    - apply Z.ltb_ge in Hk.
      destruct (pos_digits_spec (S (Z.to_nat k)) k "" Hk ltac:(lia) ltac:(lia))
        as (_ & Ha & c & r & Hcr & Hc).
      destruct (digit_not_special c Hc) as (Hws & Hm & Hpl & _).
      unfold ParseInt.parseInt. rewrite Hcr, (skip_ws_none _ (Hws r)).
      cbv iota beta. rewrite Hm, Hpl. cbv iota beta. rewrite <- Hcr.
      destruct (parse_digits (S (Z.to_nat k)) k) as [Hx Hv]; [lia..|].
      rewrite Hx. cbv iota beta. rewrite Hv. simpl. f_equal. lia. }
  split; [exact Hp|]. split.
  { unfold ParseInt.attempt_of_query, or_num. rewrite Hp.
    destruct (k =? 0); reflexivity. }
  split; [reflexivity|]. split.
  - intros q Hq. unfold ParseInt.attempt_of_query, ParseInt.parseInt.
    rewrite Hq. reflexivity.
  - intros q c r Hq Hd Hm Hpl.
    unfold ParseInt.attempt_of_query, ParseInt.parseInt. rewrite Hq.
    destruct (Ascii.eqb_spec c "-"%char); [contradiction|].
    destruct (Ascii.eqb_spec c "+"%char); [contradiction|].
    assert (Hz : String.prefix "0x" (String c r) || String.prefix "0X" (String c r) = false).
    { cbn [String.prefix]. destruct (ascii_dec "0" c) as [<-|]; [discriminate Hd|reflexivity]. }
    rewrite Hz. cbv iota beta. simpl. rewrite non_digit_value by exact Hd. reflexivity.
Qed.

Lemma attempt_query_roundtrip_witness :
  (- 2 ^ 53 <= 4 <= 2 ^ 53) /\
  ParseInt.parseInt (Str.Z_toString 4) = Some 4 /\
  ParseInt.attempt_of_query (Some (Str.Z_toString 4)) = (if 4 =? 0 then 1 else 4) /\
  ParseInt.attempt_of_query None = 1 /\
  (forall q, ParseInt.skip_ws q = EmptyString -> ParseInt.attempt_of_query (Some q) = 1) /\
  (forall q c r, ParseInt.skip_ws q = String c r ->
   Str.is_digit c = false -> c <> "-"%char -> c <> "+"%char ->
   ParseInt.attempt_of_query (Some q) = 1).
Proof.
  split; [lia|]. apply (attempt_query_roundtrip 4). lia.
Defined.

(** (X7) The TwiML route [/api/calls/twiml/:sessionId/:callId/:stage]
    never changes the store.  When the session or its current call is
    missing it answers the fixed apology document, which hangs up and
    gathers nothing; otherwise it renders the requested stage for the
    call id of the URL (whichever call is current) from the current
    call's conversation state, or the default greeting state when it
    has none, at the attempt parsed from the query. *)
Theorem twiml_route_behaviour (sid cid stage baseUrl : string)
    (q : option string) (w : World) :
  snd (TwimlRoute.handle_twiml sid cid stage baseUrl q w) = w /\
  (match w_sessions w !! sid with
   | Some s => s_currentCall s = None
   | None => True
   end ->
   fst (TwimlRoute.handle_twiml sid cid stage baseUrl q w) = Ok TwimlRoute.errorTwiML) /\
  (forall s call,
   w_sessions w !! sid = Some s -> s_currentCall s = Some call ->
   fst (TwimlRoute.handle_twiml sid cid stage baseUrl q w) =
   Ok (Twilio.generateConversationalTwiML cid sid stage baseUrl
         (Some (match call_conversationState call with
                | Some c => c
                | None => TwimlRoute.default_state
                end))
         (ParseInt.attempt_of_query q))) /\
  Twilio.has_hangup TwimlRoute.errorTwiML = true /\
  Twilio.has_gather TwimlRoute.errorTwiML = false.
Proof.
  unfold TwimlRoute.handle_twiml, try_catch, bind, ret, Storage.getSession.
  cbv beta iota zeta.
  split; [|split; [|split; [|split]]].
  - destruct (w_sessions w !! sid) as [s|]; [destruct (s_currentCall s)|];
      reflexivity.
  - destruct (w_sessions w !! sid) as [s|]; [|reflexivity].
    intros ->. reflexivity.
  - intros s call -> ->. reflexivity.
  - vm_compute. reflexivity.
  - vm_compute. reflexivity.
Qed.

(** ** The gather route outside the negotiation switch *)

Module GatherFrame.

Lemma decide_stage (stage next : Stage) (sp dg : string) (c c' : ConversationState) :
  decide stage sp dg c = Advance next c' -> cs_stage c' = next.
Proof.
  unfold decide. intros H.
  destruct (negb (has_input sp dg) && _); [discriminate H|].
  destruct (transition stage sp dg c) as [st cc].
  destruct st; first [discriminate H | injection H as <- <-; reflexivity].
Qed.

End GatherFrame.

Import GatherFrame.

(** (X8) A gather request whose URL stage is not one of the eight valid
    stages, or whose session or current call is missing, changes nothing
    and answers the retry document that redirects to the greeting stage
    of the same session and call. *)
Theorem gather_error_paths (env : Env) (req : GatherReq) (w : World) :
  (stage_of_string (gr_stage req) = None \/
   w_sessions w !! gr_sessionId req = None \/
   exists s, w_sessions w !! gr_sessionId req = Some s /\ s_currentCall s = None) ->
  handle_gather env req w = (Ok (errorTwiML req), w).
Proof.
  intros H. unfold handle_gather.
  destruct (stage_of_string (gr_stage req)) as [st|] eqn:Hst; [|reflexivity].
  unfold try_catch, bind, ret, Storage.getSession.
  destruct H as [H | [H | (s & H & Hc)]]; [discriminate | rewrite H; reflexivity |].
  rewrite H, Hc. reflexivity.
Qed.

Lemma gather_error_paths_witness :
  (stage_of_string (gr_stage (demo_req "pricing" (Some "yes") None)) = None \/
   w_sessions (demo_world SGreeting None) !! gr_sessionId (demo_req "pricing" (Some "yes") None) = None \/
   exists s, w_sessions (demo_world SGreeting None) !! gr_sessionId (demo_req "pricing" (Some "yes") None) = Some s
             /\ s_currentCall s = None) /\
  handle_gather demo_env (demo_req "pricing" (Some "yes") None) (demo_world SGreeting None)
  = (Ok (errorTwiML (demo_req "pricing" (Some "yes") None)), demo_world SGreeting None).
Proof.
  assert (H : stage_of_string (gr_stage (demo_req "pricing" (Some "yes") None)) = None)
    by reflexivity.
  split; [left; exact H|].
  apply (gather_error_paths demo_env (demo_req "pricing" (Some "yes") None)
           (demo_world SGreeting None)).
  left; exact H.
Defined.

(** (X9) A gather turn that moves the negotiation on (no timeout) writes
    only the current call of its session: the call keeps its status and
    completion time, its conversation state becomes the new state (whose
    stage is the next stage) and its negotiated price becomes that
    state's final price; the messages, journey status and transaction of
    the session are untouched.  The answer is the next stage's document
    rendered at attempt 1. *)
Theorem gather_advance_writes_call (env : Env) (req : GatherReq) (w : World)
    (s : Session) (call : Call) (stage next : Stage) (c' : ConversationState) :
  w_sessions w !! gr_sessionId req = Some s ->
  s_currentCall s = Some call ->
  stage_of_string (gr_stage req) = Some stage ->
  decide stage (speechResult req) (digits req)
    (normalize (call_conversationState call)) = Advance next c' ->
  cs_stage c' = next /\
  exists s' call',
    handle_gather env req w =
      (Ok (Twilio.generateConversationalTwiML (gr_callId req) (gr_sessionId req)
             (stage_to_string next) (gr_baseUrl req) (Some c') 1),
       {| w_sessions := <[gr_sessionId req := s']> (w_sessions w);
          w_log := w_log w |}) /\
    s_messages s' = s_messages s /\
    s_journeyStatus s' = s_journeyStatus s /\
    s_transaction s' = s_transaction s /\
    s_currentCall s' = Some call' /\
    call_id call' = call_id call /\
    call_status call' = call_status call /\
    call_completedAt call' = call_completedAt call /\
    call_conversationState call' = Some c' /\
    call_negotiatedPrice call' = cs_finalPrice c'.
Proof.
  intros Hs Hc Hst Hd.
  split; [exact (decide_stage _ _ _ _ _ _ Hd)|].
  rewrite (GatherStore.handle_gather_advance env req w s call stage next c' Hs Hc Hst Hd).
  eexists _, _. split; [reflexivity|].
  repeat split; reflexivity.
Qed.

Lemma gather_advance_writes_call_witness :
  exists stage next c',
  stage_of_string (gr_stage (demo_req "askRequirements" (Some "5 saree 7000") None))
    = Some stage /\
  decide stage (speechResult (demo_req "askRequirements" (Some "5 saree 7000") None))
    (digits (demo_req "askRequirements" (Some "5 saree 7000") None))
    (normalize (call_conversationState (demo_call SAskRequirements None))) = Advance next c' /\
  cs_stage c' = next /\
  exists s' call',
    handle_gather demo_env (demo_req "askRequirements" (Some "5 saree 7000") None)
      (demo_world SAskRequirements None) =
      (Ok (Twilio.generateConversationalTwiML "c1" "s1"
             (stage_to_string next) "https://example.test" (Some c') 1),
       {| w_sessions := <[ "s1"%string := s']> (w_sessions (demo_world SAskRequirements None));
          w_log := w_log (demo_world SAskRequirements None) |}) /\
    s_messages s' = s_messages (demo_session SAskRequirements None) /\
    s_journeyStatus s' = s_journeyStatus (demo_session SAskRequirements None) /\
    s_transaction s' = s_transaction (demo_session SAskRequirements None) /\
    s_currentCall s' = Some call' /\
    call_id call' = call_id (demo_call SAskRequirements None) /\
    call_status call' = call_status (demo_call SAskRequirements None) /\
    call_completedAt call' = call_completedAt (demo_call SAskRequirements None) /\
    call_conversationState call' = Some c' /\
    call_negotiatedPrice call' = cs_finalPrice c'.
Proof.
  eexists SAskRequirements, SNegotiatePrice, _.
  assert (Hd : decide SAskRequirements
                 (speechResult (demo_req "askRequirements" (Some "5 saree 7000") None))
                 (digits (demo_req "askRequirements" (Some "5 saree 7000") None))
                 (normalize (call_conversationState (demo_call SAskRequirements None)))
               = Advance SNegotiatePrice
                   (with_stage SNegotiatePrice
                      (with_attempts 0
                         (with_vendorPrice 7000
                            (with_quantity 5
                               (normalize (call_conversationState
                                             (demo_call SAskRequirements None))))))))
    by (vm_compute; reflexivity).
  split; [reflexivity|]. split; [exact Hd|].
  exact (gather_advance_writes_call demo_env
           (demo_req "askRequirements" (Some "5 saree 7000") None)
           (demo_world SAskRequirements None) (demo_session SAskRequirements None)
           (demo_call SAskRequirements None) SAskRequirements SNegotiatePrice _
           eq_refl eq_refl eq_refl Hd).
Defined.

(** (X10) A gather turn that ends in a timeout (no input with the
    attempts already at 3, or the switch reaching [timeout]) marks the
    current call [timeout] with the completion time, keeps the call's
    previous conversation state and negotiated price, moves the journey
    back to [selecting-vendor] and appends one assistant message saying
    the vendor was not responsive; the answer apologises and hangs up
    without gathering input. *)
Theorem gather_timeout_effect (env : Env) (req : GatherReq) (w : World)
    (s : Session) (call : Call) (stage : Stage) :
  w_sessions w !! gr_sessionId req = Some s ->
  s_currentCall s = Some call ->
  stage_of_string (gr_stage req) = Some stage ->
  is_timeout (decide stage (speechResult req) (digits req)
                (normalize (call_conversationState call))) ->
  exists s' call' content,
    handle_gather env req w =
      (Ok timeoutTwiML,
       {| w_sessions := <[gr_sessionId req := s']> (w_sessions w);
          w_log := w_log w |}) /\
    Twilio.has_hangup timeoutTwiML = true /\
    Twilio.has_gather timeoutTwiML = false /\
    s_currentCall s' = Some call' /\
    call_status call' = CallTimeout /\
    call_completedAt call' = Some (env_now env) /\
    call_conversationState call' = call_conversationState call /\
    call_negotiatedPrice call' = call_negotiatedPrice call /\
    s_journeyStatus s' = SelectingVendor /\
    s_transaction s' = s_transaction s /\
    s_messages s' = s_messages s ++ [assistant_msg env content] /\
    (content = "The vendor was not responsive during the call. Would you like to try another vendor?"%string \/
     content = "The vendor was not responsive. Would you like to try another vendor?"%string).
Proof.
  intros Hs Hc Hst Hd.
  assert (Hcont : exists content,
    handle_gather env req w =
      (Ok timeoutTwiML,
       {| w_sessions :=
            <[gr_sessionId req :=
                set_messages (s_messages s ++ [assistant_msg env content])
                  (set_journeyStatus SelectingVendor
                     (set_currentCall (Some (call_set_timeout (env_now env) call)) s))]>
              (w_sessions w);
          w_log := w_log w |}) /\
    (content = "The vendor was not responsive during the call. Would you like to try another vendor?"%string \/
     content = "The vendor was not responsive. Would you like to try another vendor?"%string)).
  { unfold handle_gather. rewrite Hst.
    unfold try_catch, bind, ret, Storage.getSession. rewrite Hs, Hc.
    destruct Hd as [Hd|Hd]; rewrite Hd; eexists; split;
    [| left; reflexivity | | right; reflexivity];
    unfold on_timeout, Storage.updateCall, Storage.updateSession,
      Storage.addMessage, put_session, bind, ret, Storage.getSession;
    rewrite Hs, Hc;
    repeat (first [ rewrite lookup_insert_eq | rewrite insert_insert_eq
                  | progress simpl ]);
    reflexivity. }
  destruct Hcont as (content & Heq & Hmsg).
  eexists _, _, content. rewrite Heq.
  split; [reflexivity|]. split; [vm_compute; reflexivity|].
  split; [vm_compute; reflexivity|].
  repeat split; try reflexivity. exact Hmsg.
Qed.

Lemma gather_timeout_effect_witness :
  exists s' call' content,
    handle_gather demo_env (demo_req "askRequirements" None None)
      (retry_world SAskRequirements 2) =
      (Ok timeoutTwiML,
       {| w_sessions := <[ "s1"%string := s']> (w_sessions (retry_world SAskRequirements 2));
          w_log := w_log (retry_world SAskRequirements 2) |}) /\
    Twilio.has_hangup timeoutTwiML = true /\
    Twilio.has_gather timeoutTwiML = false /\
    s_currentCall s' = Some call' /\
    call_status call' = CallTimeout /\
    call_completedAt call' = Some (env_now demo_env) /\
    call_conversationState call' = call_conversationState (retry_call SAskRequirements 2) /\
    call_negotiatedPrice call' = call_negotiatedPrice (retry_call SAskRequirements 2) /\
    s_journeyStatus s' = SelectingVendor /\
    s_transaction s' = s_transaction (retry_session SAskRequirements 2) /\
    s_messages s' = s_messages (retry_session SAskRequirements 2) ++ [assistant_msg demo_env content] /\
    (content = "The vendor was not responsive during the call. Would you like to try another vendor?"%string \/
     content = "The vendor was not responsive. Would you like to try another vendor?"%string).
Proof.
  apply (gather_timeout_effect demo_env (demo_req "askRequirements" None None)
           (retry_world SAskRequirements 2) (retry_session SAskRequirements 2)
           (retry_call SAskRequirements 2) SAskRequirements); try reflexivity.
  right. vm_compute. reflexivity.
Defined.

(** ** The status webhook for statuses other than ["completed"] *)

(** (X11) A ["no-answer"] or ["busy"] event marks the current call
    [no-answer], ["failed"] marks it [failed] and ["canceled"] marks it
    [hung-up]; each records the duration and the completion time, moves
    the journey back to [selecting-vendor] and appends the matching
    assistant message inviting another vendor.  Nothing else changes. *)
Theorem webhook_failure_statuses (env : Env) (req : Webhook.WebhookReq) (w : World)
    (s : Session) (call : Call) (st : CallStatus) (msg : string) :
  w_sessions w !! Webhook.wr_sessionId req = Some s ->
  s_currentCall s = Some call ->
  In (Webhook.wr_CallStatus req, st, msg)
    [ ("no-answer", NoAnswer, "The vendor didn't answer the call. Would you like to try another vendor?");
      ("busy", NoAnswer, "The vendor didn't answer the call. Would you like to try another vendor?");
      ("failed", CallFailed, "The call could not be connected. Would you like to try another vendor?");
      ("canceled", HungUp, "The call was canceled. Would you like to try another vendor?") ]%string ->
  Webhook.handle_webhook env req w =
    (Ok 200,
     {| w_sessions :=
          <[Webhook.wr_sessionId req :=
              set_messages (s_messages s ++ [assistant_msg env msg])
                (set_journeyStatus SelectingVendor
                   (set_currentCall
                      (Some (call_set_status st (Some (Webhook.duration req))
                               (Some (env_now env)) call)) s))]> (w_sessions w);
        w_log := w_log w |}).
Proof.
  intros Hs Hc Hin.
  rewrite (webhook_effect env req w s call Hs Hc).
  simpl in Hin.
  destruct Hin as [H | [H | [H | [H | []]]]]; injection H as Hst <- <-;
    rewrite <- Hst; reflexivity.
Qed.

Lemma webhook_failure_statuses_witness :
  Webhook.handle_webhook demo_env
    {| Webhook.wr_sessionId := "s1"; Webhook.wr_callId := "c1";
       Webhook.wr_CallStatus := "busy"; Webhook.wr_CallDuration := None |}
    (demo_world SGreeting None) =
    (Ok 200,
     {| w_sessions :=
          <[ "s1"%string :=
              set_messages (s_messages (demo_session SGreeting None) ++
                 [assistant_msg demo_env
                    "The vendor didn't answer the call. Would you like to try another vendor?"])
                (set_journeyStatus SelectingVendor
                   (set_currentCall
                      (Some (call_set_status NoAnswer (Some 0)
                               (Some (env_now demo_env)) (demo_call SGreeting None)))
                      (demo_session SGreeting None)))]>
            (w_sessions (demo_world SGreeting None));
        w_log := w_log (demo_world SGreeting None) |}).
Proof.
  apply (webhook_failure_statuses demo_env
           {| Webhook.wr_sessionId := "s1"; Webhook.wr_callId := "c1";
              Webhook.wr_CallStatus := "busy"; Webhook.wr_CallDuration := None |}
           (demo_world SGreeting None) (demo_session SGreeting None)
           (demo_call SGreeting None) NoAnswer); try reflexivity.
  simpl. right. left. reflexivity.
Defined.

(** (X12) Progress events and unknown statuses add no message and leave
    the journey alone: ["ringing"] sets the call to [ringing],
    ["in-progress"] and ["answered"] to [in-progress], ["initiated"] and
    ["queued"] to [initiating], each recording the duration and clearing
    the completion time (even after the call had completed); any status
    outside the ten the handler knows sets the call to [failed] with the
    completion time, silently. *)
Theorem webhook_silent_statuses (env : Env) (req : Webhook.WebhookReq) (w : World)
    (s : Session) (call : Call) :
  w_sessions w !! Webhook.wr_sessionId req = Some s ->
  s_currentCall s = Some call ->
  (forall st,
   In (Webhook.wr_CallStatus req, st)
     [ ("ringing", Ringing); ("in-progress", InProgress); ("answered", InProgress);
       ("initiated", Initiating); ("queued", Initiating) ]%string ->
   Webhook.handle_webhook env req w =
     (Ok 200,
      {| w_sessions :=
           <[Webhook.wr_sessionId req :=
               set_currentCall
                 (Some (call_set_status st (Some (Webhook.duration req)) None call)) s]>
             (w_sessions w);
         w_log := w_log w |})) /\
  (~ In (Webhook.wr_CallStatus req)
       [ "no-answer"; "busy"; "failed"; "canceled"; "completed"; "ringing";
         "in-progress"; "answered"; "initiated"; "queued" ]%string ->
   Webhook.handle_webhook env req w =
     (Ok 200,
      {| w_sessions :=
           <[Webhook.wr_sessionId req :=
               set_currentCall
                 (Some (call_set_status CallFailed (Some (Webhook.duration req))
                          (Some (env_now env)) call)) s]>
             (w_sessions w);
         w_log := w_log w |})).
Proof.
  intros Hs Hc.
  rewrite (webhook_effect env req w s call Hs Hc).
  split.
  - intros st Hin. simpl in Hin.
    destruct Hin as [H | [H | [H | [H | [H | []]]]]]; injection H as Hst <-;
      rewrite <- Hst; reflexivity.
  - intros Hn.
    assert (Hne : forall x, In x [ "no-answer"; "busy"; "failed"; "canceled"; "completed";
                                   "ringing"; "in-progress"; "answered"; "initiated";
                                   "queued" ]%string ->
                            String.eqb (Webhook.wr_CallStatus req) x = false).
    { intros x Hx. apply String.eqb_neq. intros E. apply Hn. rewrite E. exact Hx. }
    unfold Webhook.map_status.
    rewrite !Hne by (simpl; tauto).
    reflexivity.
Qed.

Lemma webhook_silent_statuses_witness :
  (Webhook.handle_webhook demo_env
    {| Webhook.wr_sessionId := "s1"; Webhook.wr_callId := "c1";
       Webhook.wr_CallStatus := "ringing"; Webhook.wr_CallDuration := Some 4 |}
    (demo_world SGreeting None) =
    (Ok 200,
     {| w_sessions :=
          <[ "s1"%string :=
              set_currentCall
                (Some (call_set_status Ringing (Some 4) None (demo_call SGreeting None)))
                (demo_session SGreeting None)]>
            (w_sessions (demo_world SGreeting None));
        w_log := w_log (demo_world SGreeting None) |})) /\
  (Webhook.handle_webhook demo_env
    {| Webhook.wr_sessionId := "s1"; Webhook.wr_callId := "c1";
       Webhook.wr_CallStatus := "paused"; Webhook.wr_CallDuration := Some 4 |}
    (demo_world SGreeting None) =
    (Ok 200,
     {| w_sessions :=
          <[ "s1"%string :=
              set_currentCall
                (Some (call_set_status CallFailed (Some 4)
                         (Some (env_now demo_env)) (demo_call SGreeting None)))
                (demo_session SGreeting None)]>
            (w_sessions (demo_world SGreeting None));
        w_log := w_log (demo_world SGreeting None) |})).
Proof.
  split.
  - apply (proj1 (webhook_silent_statuses demo_env
             {| Webhook.wr_sessionId := "s1"; Webhook.wr_callId := "c1";
                Webhook.wr_CallStatus := "ringing"; Webhook.wr_CallDuration := Some 4 |}
             (demo_world SGreeting None) (demo_session SGreeting None)
             (demo_call SGreeting None) eq_refl eq_refl) Ringing).
    simpl. left. reflexivity.
  - apply (proj2 (webhook_silent_statuses demo_env
             {| Webhook.wr_sessionId := "s1"; Webhook.wr_callId := "c1";
                Webhook.wr_CallStatus := "paused"; Webhook.wr_CallDuration := Some 4 |}
             (demo_world SGreeting None) (demo_session SGreeting None)
             (demo_call SGreeting None) eq_refl eq_refl)).
    simpl. intuition discriminate.
Defined.

(** ** The payment route step by step *)

Module ProcessFacts.
Import Payments.

(** Running a composite step on a given store, one layer at a time. *)
Lemma bind_app {A B} (m : M A) (k : A -> M B) w :
  bind m k w = match m w with (Ok a, w') => k a w' | (Throw e, w') => (Throw e, w') end.
Proof. reflexivity. Qed.

Lemma try_app {A} (m : M A) h w :
  try_catch m h w = match m w with (Ok a, w') => (Ok a, w') | (Throw e, w') => h e w' end.
Proof. reflexivity. Qed.

Lemma updTx_eval id f w s t :
  w_sessions w !! id = Some s -> s_transaction s = Some t ->
  Storage.updateTransaction id f w =
  (Ok tt, {| w_sessions := <[id := set_transaction (Some (f t)) s]> (w_sessions w);
             w_log := w_log w |}).
Proof.
  intros Hs Ht. unfold Storage.updateTransaction, bind, Storage.getSession.
  rewrite Hs, Ht. reflexivity.
Qed.

Lemma setTx_eval id t w s :
  w_sessions w !! id = Some s ->
  Storage.setTransaction id t w =
  (Ok tt, {| w_sessions := <[id := set_transaction (Some t) s]> (w_sessions w);
             w_log := w_log w |}).
Proof.
  intros Hs. unfold Storage.setTransaction, bind, Storage.getSession.
  rewrite Hs. reflexivity.
Qed.

Lemma addMsg_eval id m w s :
  w_sessions w !! id = Some s ->
  Storage.addMessage id m w =
  (Ok tt, {| w_sessions := <[id := set_messages (s_messages s ++ [m]) s]> (w_sessions w);
             w_log := w_log w |}).
Proof.
  intros Hs. unfold Storage.addMessage, bind, Storage.getSession.
  rewrite Hs. reflexivity.
Qed.

Lemma updSess_eval id f w s :
  w_sessions w !! id = Some s ->
  Storage.updateSession id f w =
  (Ok (f s), {| w_sessions := <[id := f s]> (w_sessions w); w_log := w_log w |}).
Proof.
  intros Hs. unfold Storage.updateSession, bind, Storage.getSession.
  rewrite Hs. reflexivity.
Qed.

Ltac find_lookup :=
  cbn [w_sessions]; first [ eassumption | rewrite lookup_insert_eq; reflexivity ].

(** Small reductions that never open a [bind]. *)
Ltac red_m :=
  cbv beta iota zeta delta [parse settle on_error ret throw or_throw log_settlement
    Storage.getSession pr_sessionId pr_amount pr_vendorPhone svc_offRampUSDC
    svc_sendUSDC svc_createPayout negb is_approved option_map];
  cbn [w_sessions w_log s_transaction s_selectedVendor set_transaction
    set_messages set_journeyStatus tx_status tx_set_status].

(** One step of evaluation: the lookup of a session, or the outermost
    [try_catch], [bind] or store operation applied to a known store. *)
Ltac step_m Hs :=
  match goal with
  | |- context [w_sessions ?w !! ?id] =>
      first [ rewrite lookup_insert_eq | rewrite Hs ]
  | |- context [<[?k := ?x]> ?m !! ?k] => rewrite lookup_insert_eq
  | |- context [try_catch ?m ?h ?w] => rewrite (try_app m h w)
  | |- context [bind ?m ?k ?w] => rewrite (bind_app m k w)
  | |- context [Storage.updateTransaction ?id ?f ?w] =>
      erewrite (updTx_eval id f w); [| find_lookup | first [reflexivity | eassumption]]
  | |- context [Storage.setTransaction ?id ?t ?w] =>
      erewrite (setTx_eval id t w); [| find_lookup]
  | |- context [Storage.addMessage ?id ?m ?w] =>
      erewrite (addMsg_eval id m w); [| find_lookup]
  | |- context [Storage.updateSession ?id ?f ?w] =>
      erewrite (updSess_eval id f w); [| find_lookup]
  end; red_m.

(** The approved-transaction test of the route, on the stored status. *)
Ltac use_approved :=
  match goal with
  | H : tx_status _ = TxApproved |- _ => rewrite H; red_m
  | _ => idtac
  end.

Ltac close_world :=
  rewrite ?insert_insert_eq, <- ?app_assoc;
  repeat eexists; cbn; rewrite <- ?app_assoc; reflexivity.

End ProcessFacts.

Import ProcessFacts.

(** (X13) [POST /api/payments/process] on a session with a selected vendor
    whose transaction is approved (or which has none yet), with all three
    providers succeeding: the answer is 200, the three settlement calls
    are made once each in the order conversion, transfer, payout, and the
    session ends with its transaction completed (conversion id, transfer
    hash, payout id and completion time recorded, amount the stored one,
    or the request's when a transaction is created), its journey
    completed and two assistant messages appended. *)
Theorem process_success env svc sid a ph w s v conv hash po :
  w_sessions w !! sid = Some s ->
  s_selectedVendor s = Some v ->
  match s_transaction s with None => True | Some t => tx_status t = TxApproved end ->
  Payments.svc_offRampUSDC svc = Some conv ->
  Payments.svc_sendUSDC svc = Some hash ->
  Payments.svc_createPayout svc = Some po ->
  exists s' t' m1 m2,
    Payments.handle_process env svc
      {| Payments.pr_sessionId := Some sid; Payments.pr_amount := Some a;
         Payments.pr_vendorPhone := Some ph |} w
    = (Ok 200, {| w_sessions := <[sid := s']> (w_sessions w);
                  w_log := w_log w ++ [OffRampUSDC sid; SendUSDC sid; CreatePayout sid] |}) /\
    s_journeyStatus s' = JourneyCompleted /\
    s_messages s' = s_messages s ++ [assistant_msg env m1; assistant_msg env m2] /\
    s_transaction s' = Some t' /\
    tx_status t' = TxCompleted /\
    tx_amount t' = match s_transaction s with Some t => tx_amount t | None => a end /\
    tx_coinbaseConversionId t' = Some (Payments.conv_conversionId conv) /\
    tx_locusTransactionHash t' = Some hash /\
    tx_stripePayoutId t' = Some po /\
    tx_completedAt t' = Some (env_now env).
Proof.
  intros Hs Hv Ht Ho Hsd Hp.
  destruct svc as [c1 c2 c3]; cbn [Payments.svc_offRampUSDC Payments.svc_sendUSDC
    Payments.svc_createPayout] in Ho, Hsd, Hp; subst.
  unfold Payments.handle_process.
  repeat (step_m Hs). rewrite Hv. red_m.
  destruct (s_transaction s) as [t|] eqn:Etx; use_approved;
    repeat (step_m Hs); close_world.
Qed.

Lemma process_success_witness :
  exists s' t' m1 m2,
    Payments.handle_process demo_env svc_ok pay_req (pay_world true (Some (demo_tx TxApproved)))
    = (Ok 200, {| w_sessions := <[ "s1"%string := s']>
                    (w_sessions (pay_world true (Some (demo_tx TxApproved))));
                  w_log := w_log (pay_world true (Some (demo_tx TxApproved))) ++
                           [OffRampUSDC "s1"; SendUSDC "s1"; CreatePayout "s1"] |}) /\
    s_journeyStatus s' = JourneyCompleted /\
    s_messages s' = s_messages (pay_session true (Some (demo_tx TxApproved))) ++
                    [assistant_msg demo_env m1; assistant_msg demo_env m2] /\
    s_transaction s' = Some t' /\
    tx_status t' = TxCompleted /\
    tx_amount t' = 9000 /\
    tx_coinbaseConversionId t' = Some "cv1"%string /\
    tx_locusTransactionHash t' = Some "0xabcdef0123456789"%string /\
    tx_stripePayoutId t' = Some "po1"%string /\
    tx_completedAt t' = Some (env_now demo_env).
Proof.
  exact (process_success demo_env svc_ok "s1" 9000 "+910000000000"
           (pay_world true (Some (demo_tx TxApproved)))
           (pay_session true (Some (demo_tx TxApproved)))
           {| v_id := "v1"; v_name := "Vendor"; v_phone := "+910000000000" |}
           _ "0xabcdef0123456789" "po1" eq_refl eq_refl eq_refl eq_refl eq_refl eq_refl).
Defined.

(** (X14) When a provider fails on that path the answer is 500, the
    settlement calls stop at the failing one, the transaction is marked
    failed and the journey is left as it was; what the earlier steps
    recorded stays (no rollback): after a failed conversion nothing else
    is recorded, after a failed transfer the conversion id and the
    conversion message stay, after a failed payout the transfer hash
    stays as well. *)
Theorem process_provider_failure env svc sid a ph w s v :
  w_sessions w !! sid = Some s ->
  s_selectedVendor s = Some v ->
  match s_transaction s with None => True | Some t => tx_status t = TxApproved end ->
  (Payments.svc_offRampUSDC svc = None ->
   exists s' t',
     Payments.handle_process env svc
       {| Payments.pr_sessionId := Some sid; Payments.pr_amount := Some a;
          Payments.pr_vendorPhone := Some ph |} w
     = (Ok 500, {| w_sessions := <[sid := s']> (w_sessions w);
                   w_log := w_log w ++ [OffRampUSDC sid] |}) /\
     s_transaction s' = Some t' /\ tx_status t' = TxFailed /\
     tx_coinbaseConversionId t' =
       match s_transaction s with Some t => tx_coinbaseConversionId t | None => None end /\
     s_messages s' = s_messages s /\ s_journeyStatus s' = s_journeyStatus s) /\
  (forall conv, Payments.svc_offRampUSDC svc = Some conv ->
   Payments.svc_sendUSDC svc = None ->
   exists s' t' m,
     Payments.handle_process env svc
       {| Payments.pr_sessionId := Some sid; Payments.pr_amount := Some a;
          Payments.pr_vendorPhone := Some ph |} w
     = (Ok 500, {| w_sessions := <[sid := s']> (w_sessions w);
                   w_log := w_log w ++ [OffRampUSDC sid; SendUSDC sid] |}) /\
     s_transaction s' = Some t' /\ tx_status t' = TxFailed /\
     tx_coinbaseConversionId t' = Some (Payments.conv_conversionId conv) /\
     s_messages s' = s_messages s ++ [assistant_msg env m] /\
     s_journeyStatus s' = s_journeyStatus s) /\
  (forall conv hash, Payments.svc_offRampUSDC svc = Some conv ->
   Payments.svc_sendUSDC svc = Some hash ->
   Payments.svc_createPayout svc = None ->
   exists s' t' m,
     Payments.handle_process env svc
       {| Payments.pr_sessionId := Some sid; Payments.pr_amount := Some a;
          Payments.pr_vendorPhone := Some ph |} w
     = (Ok 500, {| w_sessions := <[sid := s']> (w_sessions w);
                   w_log := w_log w ++ [OffRampUSDC sid; SendUSDC sid; CreatePayout sid] |}) /\
     s_transaction s' = Some t' /\ tx_status t' = TxFailed /\
     tx_coinbaseConversionId t' = Some (Payments.conv_conversionId conv) /\
     tx_locusTransactionHash t' = Some hash /\
     tx_completedAt t' =
       match s_transaction s with Some t => tx_completedAt t | None => None end /\
     s_messages s' = s_messages s ++ [assistant_msg env m] /\
     s_journeyStatus s' = s_journeyStatus s).
Proof.
  intros Hs Hv Ht.
  destruct svc as [c1 c2 c3];
    cbn [Payments.svc_offRampUSDC Payments.svc_sendUSDC Payments.svc_createPayout].
  split; [|split]; intros; subst;
    unfold Payments.handle_process;
    repeat (step_m Hs); rewrite Hv; red_m;
    destruct (s_transaction s) as [t|] eqn:Etx; use_approved;
    repeat (step_m Hs); close_world.
Qed.

Lemma process_provider_failure_witness :
  exists s' t' m,
    Payments.handle_process demo_env
      {| Payments.svc_offRampUSDC := Payments.svc_offRampUSDC svc_ok;
         Payments.svc_sendUSDC := Payments.svc_sendUSDC svc_ok;
         Payments.svc_createPayout := None |} pay_req (pay_world true None)
    = (Ok 500, {| w_sessions := <[ "s1"%string := s']> (w_sessions (pay_world true None));
                  w_log := w_log (pay_world true None) ++
                           [OffRampUSDC "s1"; SendUSDC "s1"; CreatePayout "s1"] |}) /\
    s_transaction s' = Some t' /\ tx_status t' = TxFailed /\
    tx_coinbaseConversionId t' = Some "cv1" /\
    tx_locusTransactionHash t' = Some "0xabcdef0123456789" /\
    tx_completedAt t' = None /\
    s_messages s' = s_messages (pay_session true None) ++ [assistant_msg demo_env m] /\
    s_journeyStatus s' = s_journeyStatus (pay_session true None).
Proof.
  exact (proj2 (proj2 (process_provider_failure demo_env
           {| Payments.svc_offRampUSDC := Payments.svc_offRampUSDC svc_ok;
              Payments.svc_sendUSDC := Payments.svc_sendUSDC svc_ok;
              Payments.svc_createPayout := None |}
           "s1" 9000 "+910000000000" (pay_world true None) (pay_session true None)
           {| v_id := "v1"; v_name := "Vendor"; v_phone := "+910000000000" |}
           eq_refl eq_refl I))
           {| Payments.conv_conversionId := "cv1";
               Payments.conv_amountUSDC_fixed2 := "108.43";
               Payments.conv_amountFiat_fixed2 := "9000.00";
               Payments.conv_fee_fixed2 := "1.08" |} "0xabcdef0123456789" eq_refl eq_refl eq_refl).
Defined.

(** (X15) The rejections of the payment route: a well-formed request for
    a missing session, or for a session without a selected vendor, is
    answered 404 and changes nothing; a request without an amount or a
    vendor phone is answered 500 without any settlement call, and when it
    names a session holding a transaction that transaction is marked
    failed, whatever its status was (even completed). *)
Theorem process_rejections env svc :
  (forall sid a ph w,
   (w_sessions w !! sid = None \/
    exists s, w_sessions w !! sid = Some s /\ s_selectedVendor s = None) ->
   Payments.handle_process env svc
     {| Payments.pr_sessionId := Some sid; Payments.pr_amount := Some a;
        Payments.pr_vendorPhone := Some ph |} w = (Ok 404, w)) /\
  (forall ra rph w, (ra = None \/ rph = None) ->
   (forall sid,
    Payments.handle_process env svc
      {| Payments.pr_sessionId := Some sid; Payments.pr_amount := ra;
         Payments.pr_vendorPhone := rph |} w
    = (Ok 500, match w_sessions w !! sid with
               | Some s =>
                   match s_transaction s with
                   | Some t =>
                       {| w_sessions :=
                            <[sid := set_transaction (Some (tx_set_status TxFailed t)) s]>
                              (w_sessions w);
                          w_log := w_log w |}
                   | None => w
                   end
               | None => w
               end)) /\
   Payments.handle_process env svc
     {| Payments.pr_sessionId := None; Payments.pr_amount := ra;
        Payments.pr_vendorPhone := rph |} w = (Ok 500, w)).
Proof.
  split.
  - intros sid a ph w H.
    unfold Payments.handle_process, try_catch, bind, Payments.parse, ret,
      Storage.getSession. simpl.
    destruct H as [-> | (s & -> & Hv)]; [reflexivity|]. rewrite Hv. reflexivity.
  - intros ra rph w Hbad.
    assert (Hp : forall sid,
               Payments.parse {| Payments.pr_sessionId := sid; Payments.pr_amount := ra;
                                 Payments.pr_vendorPhone := rph |}
               = throw "validation error")
      by (intros sid; unfold Payments.parse; simpl;
          destruct sid, Hbad as [-> | ->]; [|destruct ra| |destruct ra]; reflexivity).
    split.
    + intros sid. unfold Payments.handle_process. rewrite Hp.
      unfold Payments.on_error, try_catch, bind, throw, ret, Storage.getSession. simpl.
      destruct (w_sessions w !! sid) as [s|] eqn:Hs; [|reflexivity].
      destruct (s_transaction s) as [t|] eqn:Ht; [|reflexivity].
      unfold Storage.updateTransaction, bind, Storage.getSession.
      rewrite Hs, Ht. reflexivity.
    + unfold Payments.handle_process. rewrite Hp. reflexivity.
Qed.

(** ** Vendor selection and call initiation *)

Module RouteFacts.

Ltac step_r Hs :=
  first [ step_m Hs
        | progress (cbv beta iota delta [Select.parse Initiate.parse
            StoreOps.setSelectedVendor StoreOps.setCurrentCall put_session
            Storage.updateCall]; red_m)
        | progress cbn [Select.sr_sessionId Select.sr_vendorId
            Initiate.ir_sessionId Initiate.ir_vendorId Initiate.ir_userBudget
            Initiate.ir_baseUrl Initiate.app_world Initiate.app_callSessions
            Initiate.app_twimlStore s_currentCall set_currentCall
            set_selectedVendor] ].

Lemma string_length_app (s1 s2 : string) :
  String.length (s1 ++ s2) = (String.length s1 + String.length s2)%nat.
Proof. induction s1 as [|c s1 IH]; simpl; [reflexivity | now rewrite IH]. Qed.

(** A cache key is never the bare call id. *)
Lemma twiml_key_ne sid cid : Initiate.twiml_key sid cid <> cid.
Proof.
  intros H. apply (f_equal String.length) in H.
  unfold Initiate.twiml_key in H. rewrite !string_length_app in H.
  simpl in H. lia.
Qed.

End RouteFacts.

Import RouteFacts.

(** (X21) [POST /api/vendors/select]: a body without a session id or a
    vendor id is answered 500, a missing session or a vendor id that is
    not among the session's vendors is answered 404, and in these cases
    nothing changes.  Otherwise the first vendor of the session's list
    with that id becomes the selected vendor, the journey moves to
    [calling-vendor], one assistant message naming the vendor is
    appended, nothing else changes and the answer is 200. *)
Theorem select_route env :
  (forall r w, Select.sr_sessionId r = None \/ Select.sr_vendorId r = None ->
   Select.handle_select env r w = (Ok 500, w)) /\
  (forall sid vid w,
   (w_sessions w !! sid = None \/
    exists s, w_sessions w !! sid = Some s /\ Select.find_vendor (s_vendors s) vid = None) ->
   Select.handle_select env
     {| Select.sr_sessionId := Some sid; Select.sr_vendorId := Some vid |} w
   = (Ok 404, w)) /\
  (forall sid vid w s v,
   w_sessions w !! sid = Some s ->
   Select.find_vendor (s_vendors s) vid = Some v ->
   Select.handle_select env
     {| Select.sr_sessionId := Some sid; Select.sr_vendorId := Some vid |} w
   = (Ok 200,
      {| w_sessions :=
           <[sid := set_messages
                      (s_messages s ++
                       [assistant_msg env
                          ("Great choice! I'll contact " ++ v_name v
                           ++ " to negotiate the best price for you. Please wait while I make the call...")%string])
                      (set_journeyStatus CallingVendor (set_selectedVendor (Some v) s))]>
             (w_sessions w);
         w_log := w_log w |})).
Proof.
  split; [|split].
  - intros [rs rv] w H. simpl in H.
    unfold Select.handle_select, try_catch, bind, Select.parse, throw.
    destruct H as [-> | ->]; [|destruct rs]; reflexivity.
  - intros sid vid w H.
    unfold Select.handle_select, try_catch, bind, Select.parse, ret,
      Storage.getSession. simpl.
    destruct H as [-> | (s & -> & Hv)]; [reflexivity|]. rewrite Hv. reflexivity.
  - intros sid vid w s v Hs Hv. unfold Select.handle_select.
    repeat (first [step_r Hs | rewrite Hv; red_m]).
    rewrite !insert_insert_eq. destruct s; reflexivity.
Qed.

(** (X22) [POST /api/calls/initiate]: a body missing one of its fields
    is answered 500 and a missing session or one without a selected vendor
    404, with the store and both caches unchanged.  Otherwise the session's
    current call becomes a new call to the selected vendor (whatever vendor
    id the body names) at stage [greeting] with quantity 5, the budget as
    initial price and no attempts, already marked ringing; the call id is
    mapped to the session and the greeting document is cached under
    "sessionId-callId-greeting"; the answer is 200.  The legacy route
    [GET /api/calls/twiml/:callId] then finds the document under that key
    but, asked with the bare call id, answers as before the call. *)
Theorem initiate_route env :
  (forall req a,
   Initiate.ir_sessionId req = None \/ Initiate.ir_vendorId req = None \/
   Initiate.ir_userBudget req = None ->
   Initiate.handle_initiate env req a = (500, a)) /\
  (forall req a sid vid b,
   Initiate.ir_sessionId req = Some sid -> Initiate.ir_vendorId req = Some vid ->
   Initiate.ir_userBudget req = Some b ->
   (w_sessions (Initiate.app_world a) !! sid = None \/
    exists s, w_sessions (Initiate.app_world a) !! sid = Some s /\ s_selectedVendor s = None) ->
   Initiate.handle_initiate env req a = (404, a)) /\
  (forall req a sid vid b s v,
   Initiate.ir_sessionId req = Some sid -> Initiate.ir_vendorId req = Some vid ->
   Initiate.ir_userBudget req = Some b ->
   w_sessions (Initiate.app_world a) !! sid = Some s -> s_selectedVendor s = Some v ->
   let doc := Twilio.generateConversationalTwiML (env_uuid env) sid "greeting"
                (Initiate.ir_baseUrl req)
                (Some {| cs_stage := SGreeting; cs_quantity := Some 5;
                         cs_initialPrice := Some b; cs_vendorPrice := None;
                         cs_finalPrice := None; cs_attempts := 0 |}) 1 in
   let a' := {| Initiate.app_world :=
                  {| w_sessions :=
                       <[sid := set_currentCall
                                  (Some (call_with_status Ringing (Initiate.new_call env v b))) s]>
                         (w_sessions (Initiate.app_world a));
                     w_log := w_log (Initiate.app_world a) |};
                Initiate.app_callSessions := <[env_uuid env := sid]> (Initiate.app_callSessions a);
                Initiate.app_twimlStore :=
                  <[Initiate.twiml_key sid (env_uuid env) := doc]> (Initiate.app_twimlStore a) |} in
   Initiate.handle_initiate env req a = (200, a') /\
   Initiate.legacy_twiml a' (Initiate.twiml_key sid (env_uuid env)) = Some doc /\
   Initiate.legacy_twiml a' (env_uuid env) = Initiate.legacy_twiml a (env_uuid env)).
Proof.
  split; [|split].
  - intros [bu rs rv rb] [w cs ts] H. simpl in H.
    unfold Initiate.handle_initiate, Initiate.initiate_store, try_catch, bind,
      Initiate.parse, throw. simpl.
    destruct H as [-> | [-> | ->]]; [|destruct rs..]; try destruct rv; reflexivity.
  - intros [bu rs rv rb] [w cs ts] sid vid b Hsid Hvid Hb H.
    simpl in Hsid, Hvid, Hb, H. subst rs rv rb.
    unfold Initiate.handle_initiate, Initiate.initiate_store, try_catch, bind,
      Initiate.parse, ret, Storage.getSession. simpl.
    destruct H as [-> | (s & -> & Hv)]; [reflexivity|]. rewrite Hv. reflexivity.
  - intros [bu rs rv rb] [w cs ts] sid vid b s v Hsid Hvid Hb Hs Hv.
    simpl in Hsid, Hvid, Hb, Hs. subst rs rv rb. cbv zeta.
    split; [|split].
    + unfold Initiate.handle_initiate, Initiate.initiate_store.
      repeat (first [step_r Hs | rewrite Hv; red_m]).
      rewrite !insert_insert_eq. destruct s; reflexivity.
    + unfold Initiate.legacy_twiml. cbn [Initiate.app_twimlStore].
      apply lookup_insert_eq.
    + unfold Initiate.legacy_twiml. cbn [Initiate.app_twimlStore].
      apply lookup_insert_ne, twiml_key_ne.
Qed.
